(** * A shallow embedding of the database operator of [k8s_operator.py]

    The operator keeps a registry of [DatabaseResource] objects keyed by
    name, an append-only reconciliation history, and drives every resource
    through the phases Pending, Provisioning, Running, Updating, Deleting.

    Python values are references: a [DatabaseResource] stores the very [spec]
    dict its caller passed, and [create_database] returns the very object it
    has put in the registry.  The embedding therefore keeps two stores of
    objects, one of spec dicts and one of resources, and every operation
    works on locations in them.  Exceptions are an explicit outcome; the
    wall clock is a sequence of readings; [time.sleep] and the INFO lines of
    the logger are left out, except for the dict subscripts that an INFO
    line evaluates, which can raise [KeyError]. *)

From Stdlib Require Import Ascii ZArith Lia.
From stdpp Require Import base option list strings pretty gmap.

Open Scope string_scope.
Open Scope Z_scope.

(** ** Python values *)

(** The values a spec dict holds in this program: strings, integers, and
    [None] (which is also what [dict.get] answers for a missing key). *)
Inductive value : Type :=
  | VNone
  | VStr (s : string)
  | VInt (z : Z).

#[global] Instance value_eq_dec : EqDecision value.
Proof. solve_decision. Defined.

(** [str(v)], as an f-string renders a value. *)
Definition py_str (v : value) : string :=
  match v with
  | VNone => "None"
  | VStr s => s
  | VInt z => pretty z
  end.

(** ** The clock *)

Record datetime : Type := {
  year : nat; month : nat; day : nat;
  hour : nat; minute : nat; second : nat
}.




Fixpoint zeros (k : nat) : string :=
  match k with
  | 0%nat => ""
  | S k' => String "0" (zeros k')
  end.

(** [n] in decimal, padded on the left with zeros to [width] characters and
    never cut: C's [%02d] and [%04d]. *)
Definition zero_padded (width n : nat) : string :=
  zeros (width - String.length (pretty n)) +:+ pretty n.

Definition two_digits (n : nat) : string := zero_padded 2 n.

Definition four_digits (n : nat) : string := zero_padded 4 n.

(** [dt.strftime('%Y%m%d-%H%M%S')].  CPython hands the format to the C
    library's [strftime]: [%m], [%d], [%H], [%M] and [%S] are padded with a
    zero to two characters, and [%Y] is the year in decimal as it is, so a
    year below 1000 comes out with fewer than four characters. *)
Definition strftime (dt : datetime) : string :=
  pretty (year dt) +:+ two_digits (month dt) +:+ two_digits (day dt)
  +:+ "-" +:+ two_digits (hour dt) +:+ two_digits (minute dt) +:+ two_digits (second dt).







(** ** Objects *)

(** A location in one of the two object stores. *)
Abbreviation loc := nat (only parsing).

Module Health.
Record t : Type := {
  status : string;
  uptime : string;
  connections : Z;
  storage_used : string
}.
End Health.

(** [DatabaseResource.status]: a dict whose keys [connection_string] and
    [health] are absent until a handler sets them. *)
Record Status : Type := {
  phase : string;
  ready : bool;
  message : string;
  connection_string : option string;
  health : option Health.t
}.

Record Metadata : Type := {
  created_at : datetime;
  generation : Z
}.

Record DatabaseResource : Type := {
  name : string;
  spec : loc;          (* a reference to the caller's dict *)
  status : Status;
  metadata : Metadata
}.

Module Event.
Record t : Type := {
  timestamp : datetime;
  database : string;
  phase : string;
  action : string
}.
End Event.

(** What [get_database_status] returns: [{'error': ...}] for an unknown
    name, the nine-key view of the resource otherwise.  The [health] of the
    view is [status.get('health', {})]; [None] stands for the empty dict. *)
Inductive status_dict : Type :=
  | StatusError (error : string)
  | StatusOf (name : string) (engine version : value) (phase : string)
      (ready : bool) (message : string) (created_at : datetime)
      (generation : Z) (health : option Health.t).

(** ** Insertion-ordered dictionaries

    [self.databases] is a Python dict: assignment to a key that is present
    keeps its position, a new key goes to the end, and iteration follows
    insertion order. *)
Section ordered_dict.
Context {V : Type}.

Fixpoint od_lookup (k : string) (d : list (string * V)) : option V :=
  match d with
  | [] => None
  | (k', v) :: d' => if decide (k = k') then Some v else od_lookup k d'
  end.

Fixpoint od_set (k : string) (v : V) (d : list (string * V)) : list (string * V) :=
  match d with
  | [] => [(k, v)]
  | (k', v') :: d' =>
      if decide (k = k') then (k, v) :: d' else (k', v') :: od_set k v d'
  end.

Definition od_del (k : string) (d : list (string * V)) : list (string * V) :=
  filter (fun kv => kv.1 ≠ k) d.

Definition od_keys (d : list (string * V)) : list string := d.*1.
End ordered_dict.

(** ** The state of the program *)

Record World : Type := {
  (* DatabaseOperator *)
  databases : list (string * loc);
  reconciliation_history : list Event.t;
  (* the objects the program holds references to *)
  objects : list DatabaseResource;
  dicts : list (gmap string value);
  (* the environment: clock readings taken so far, ERROR lines logged *)
  ticks : nat;
  error_log : list string
}.

(** [DatabaseOperator.__init__], in a program that has built no dict yet. *)
Definition init : World :=
  {| databases := []; reconciliation_history := [];
     objects := []; dicts := []; ticks := 0%nat; error_log := [] |}.

Definition set_databases (f : list (string * loc) → list (string * loc)) (w : World) : World :=
  {| databases := f (databases w); reconciliation_history := reconciliation_history w;
     objects := objects w; dicts := dicts w; ticks := ticks w; error_log := error_log w |}.

Definition set_history (f : list Event.t → list Event.t) (w : World) : World :=
  {| databases := databases w; reconciliation_history := f (reconciliation_history w);
     objects := objects w; dicts := dicts w; ticks := ticks w; error_log := error_log w |}.

Definition set_objects (f : list DatabaseResource → list DatabaseResource) (w : World) : World :=
  {| databases := databases w; reconciliation_history := reconciliation_history w;
     objects := f (objects w); dicts := dicts w; ticks := ticks w; error_log := error_log w |}.

Definition set_dicts (f : list (gmap string value) → list (gmap string value)) (w : World) : World :=
  {| databases := databases w; reconciliation_history := reconciliation_history w;
     objects := objects w; dicts := f (dicts w); ticks := ticks w; error_log := error_log w |}.

Definition set_ticks (f : nat → nat) (w : World) : World :=
  {| databases := databases w; reconciliation_history := reconciliation_history w;
     objects := objects w; dicts := dicts w; ticks := f (ticks w); error_log := error_log w |}.

Definition set_error_log (f : list string → list string) (w : World) : World :=
  {| databases := databases w; reconciliation_history := reconciliation_history w;
     objects := objects w; dicts := dicts w; ticks := ticks w; error_log := f (error_log w) |}.

(** The object, or the dict, at a location replaced by another. *)
Definition put_obj (l : loc) (o : DatabaseResource) : World → World :=
  set_objects (fun h => <[l := o]> h).

Definition put_dict (l : loc) (d : gmap string value) : World → World :=
  set_dicts (fun h => <[l := d]> h).

(** ** Computations that may raise *)

Inductive exn : Type :=
  | ValueError (msg : string)
  | KeyError (key : string)
  (* Not a Python exception: a Python reference always denotes a live
     object.  A location outside its store ends the computation this way. *)
  | InvalidReference (l : loc).

Inductive outcome (A : Type) : Type :=
  | Returned (a : A)
  | Raised (e : exn).
Arguments Returned {A} a.
Arguments Raised {A} e.

Definition M (A : Type) : Type := World → outcome A * World.

Definition ret {A} (a : A) : M A := fun w => (Returned a, w).

Definition bind {A B} (m : M A) (k : A → M B) : M B :=
  fun w =>
    match m w with
    | (Returned a, w') => k a w'
    | (Raised e, w') => (Raised e, w')
    end.

Definition raise {A} (e : exn) : M A := fun w => (Raised e, w).

Definition gets {A} (f : World → A) : M A := fun w => (Returned (f w), w).

Definition modify (f : World → World) : M unit := fun w => (Returned tt, f w).

Notation "'let*' x ':=' m 'in' k" := (bind m (fun x => k))
  (at level 10, x name, m at level 100, k at level 200, only parsing).
Notation "m '>>' k" := (bind m (fun _ => k))
  (at level 100, k at level 200, right associativity, only parsing).

(** ** Primitive steps *)

Section operator.
(** [clock n] is what the [n]-th call of [datetime.now()] answers. *)
Variable clock : nat → datetime.

Definition now : M datetime :=
  fun w => (Returned (clock (ticks w)), set_ticks S w).

(** [logger.error(msg)] *)
Definition logger_error (msg : string) : M unit :=
  modify (set_error_log (fun l => (l ++ [msg])%list)).

Definition read_dict (l : loc) : M (gmap string value) :=
  fun w =>
    match dicts w !! l with
    | Some d => (Returned d, w)
    | None => (Raised (InvalidReference l), w)
    end.

Definition write_dict (l : loc) (d : gmap string value) : M unit :=
  let* _ := read_dict l in
  modify (set_dicts (fun h => <[l := d]> h)).

Definition read_obj (l : loc) : M DatabaseResource :=
  fun w =>
    match objects w !! l with
    | Some o => (Returned o, w)
    | None => (Raised (InvalidReference l), w)
    end.

Definition write_obj (l : loc) (o : DatabaseResource) : M unit :=
  let* _ := read_obj l in
  modify (set_objects (fun h => <[l := o]> h)).

(** A new object; its location is the next free one. *)
Definition new_obj (o : DatabaseResource) : M loc :=
  fun w => (Returned (length (objects w)), set_objects (fun h => (h ++ [o])%list) w).

(** The caller builds a dict, [{k1: v1, ...}]. *)
Definition new_dict (d : gmap string value) : M loc :=
  fun w => (Returned (length (dicts w)), set_dicts (fun h => (h ++ [d])%list) w).

(** [d[k]] *)
Definition subscript (l : loc) (k : string) : M value :=
  let* d := read_dict l in
  match d !! k with
  | Some v => ret v
  | None => raise (KeyError k)
  end.

(** [d.get(k)] *)
Definition dict_get (d : gmap string value) (k : string) : value :=
  default VNone (d !! k).

(** [db.status[...] = ...] and [db.metadata[...] = ...] on the object at [db] *)
Definition map_status (f : Status → Status) (o : DatabaseResource) : DatabaseResource :=
  {| name := name o; spec := spec o; status := f (status o); metadata := metadata o |}.

Definition map_metadata (f : Metadata → Metadata) (o : DatabaseResource) : DatabaseResource :=
  {| name := name o; spec := spec o; status := status o; metadata := f (metadata o) |}.

Definition set_status (db : loc) (f : Status → Status) : M unit :=
  let* o := read_obj db in
  write_obj db (map_status f o).

Definition set_metadata (db : loc) (f : Metadata → Metadata) : M unit :=
  let* o := read_obj db in
  write_obj db (map_metadata f o).

Definition with_phase (p : string) (s : Status) : Status :=
  {| phase := p; ready := ready s; message := message s;
     connection_string := connection_string s; health := health s |}.

Definition with_ready (b : bool) (s : Status) : Status :=
  {| phase := phase s; ready := b; message := message s;
     connection_string := connection_string s; health := health s |}.

Definition with_message (m : string) (s : Status) : Status :=
  {| phase := phase s; ready := ready s; message := m;
     connection_string := connection_string s; health := health s |}.

Definition with_connection_string (c : string) (s : Status) : Status :=
  {| phase := phase s; ready := ready s; message := message s;
     connection_string := Some c; health := health s |}.

Definition with_health (h : Health.t) (s : Status) : Status :=
  {| phase := phase s; ready := ready s; message := message s;
     connection_string := connection_string s; health := Some h |}.

Definition with_generation (g : Z) (m : Metadata) : Metadata :=
  {| created_at := created_at m; generation := g |}.

(** ** [DatabaseResource.__init__] *)

(** The object [DatabaseResource(name, spec)] builds at clock reading [t]. *)
Definition fresh_resource (name : string) (spec : loc) (t : datetime) : DatabaseResource :=
  {| name := name; spec := spec;
     status := {| phase := "Pending"; ready := false;
                  message := "Waiting for reconciliation";
                  connection_string := None; health := None |};
     metadata := {| created_at := t; generation := 1 |} |}.

Definition DatabaseResource_init (name : string) (spec : loc) : M loc :=
  let* t := now in
  new_obj (fresh_resource name spec t).

(** ** The phase handlers *)

Definition _provision_database (db : loc) : M unit :=
  let* o := read_obj db in
  let* _ := subscript (spec o) "engine" in
  let* _ := subscript (spec o) "version" in
  set_status db (with_phase "Provisioning") >>
  set_status db (with_message "Database provisioning in progress").

Definition _check_provisioning_status (db : loc) : M unit :=
  set_status db (with_phase "Running") >>
  set_status db (with_ready true) >>
  set_status db (with_message "Database is ready") >>
  let* o := read_obj db in
  let* engine := subscript (spec o) "engine" in
  set_status db
    (with_connection_string (py_str engine +:+ "://localhost:5432/" +:+ name o)).

Definition _monitor_health (db : loc) : M unit :=
  set_status db
    (with_health {| Health.status := "healthy"; Health.uptime := "1h 23m";
                    Health.connections := 15; Health.storage_used := "2.3 GB" |}).

Definition _apply_update (db : loc) : M unit :=
  let* o := read_obj db in
  let* _ := subscript (spec o) "version" in
  set_status db (with_phase "Running") >>
  set_status db (with_message "Update completed successfully").

(** [del self.databases[k]] *)
Definition del_database (k : string) : M unit :=
  let* dbs := gets databases in
  match od_lookup k dbs with
  | Some _ => modify (set_databases (od_del k))
  | None => raise (KeyError k)
  end.

Definition _delete_database (db : loc) : M unit :=
  let* o := read_obj db in
  del_database (name o).

(** The object each handler leaves at [db]. *)
Definition provisioned (o : DatabaseResource) : DatabaseResource :=
  map_status (with_message "Database provisioning in progress")
    (map_status (with_phase "Provisioning") o).

Definition running (engine : value) (o : DatabaseResource) : DatabaseResource :=
  map_status
    (with_connection_string (py_str engine +:+ "://localhost:5432/" +:+ name o))
    (map_status (with_message "Database is ready")
       (map_status (with_ready true) (map_status (with_phase "Running") o))).

Definition healthy (o : DatabaseResource) : DatabaseResource :=
  map_status
    (with_health {| Health.status := "healthy"; Health.uptime := "1h 23m";
                    Health.connections := 15; Health.storage_used := "2.3 GB" |}) o.

Definition updated (o : DatabaseResource) : DatabaseResource :=
  map_status (with_message "Update completed successfully")
    (map_status (with_phase "Running") o).

(** ** [reconcile] *)
Definition reconcile (name : string) : M unit :=
  let* dbs := gets databases in
  match od_lookup name dbs with
  | None => logger_error ("Database " +:+ name +:+ " not found")
  | Some db =>
      let* o := read_obj db in
      (if decide (phase (status o) = "Pending") then _provision_database db
       else if decide (phase (status o) = "Provisioning") then _check_provisioning_status db
       else if decide (phase (status o) = "Running") then _monitor_health db
       else if decide (phase (status o) = "Updating") then _apply_update db
       else if decide (phase (status o) = "Deleting") then _delete_database db
       else ret tt) >>
      let* t := now in
      let* o' := read_obj db in
      modify (set_history (fun h =>
        (h ++ [ {| Event.timestamp := t; Event.database := name;
                   Event.phase := phase (status o');
                   Event.action := "reconciled" |} ])%list))
  end.

(** ** [create_database] *)

Definition required_fields : list string := ["engine"; "version"; "storage"].

(** The validation loop: the first required field that is missing raises. *)
Fixpoint check_fields (fields : list string) (spec : loc) : M unit :=
  match fields with
  | [] => ret tt
  | field :: rest =>
      let* d := read_dict spec in
      match d !! field with
      | None => raise (ValueError ("Missing required field: " +:+ field))
      | Some _ => check_fields rest spec
      end
  end.

Definition create_database (name : string) (spec : loc) : M loc :=
  check_fields required_fields spec >>
  let* db := DatabaseResource_init name spec in
  modify (set_databases (od_set name db)) >>
  reconcile name >>
  ret db.

(** ** [update_database] *)

(** The change set: the items of the new spec whose value is not the one
    [db.spec.get(key)] answers.  (The source keeps a rendering of each
    item; only whether the list is empty is used.) *)
Definition changes (cur new : gmap string value) : list (string * value) :=
  filter (fun kv => dict_get cur kv.1 ≠ kv.2) (map_to_list new).

(** The three writes of an accepted update: [db.spec.update(spec)], the
    generation bump, and the phase. *)
Definition accept_update (db new_spec : loc) : M unit :=
  let* o := read_obj db in
  let* cur := read_dict (spec o) in
  let* new := read_dict new_spec in
  write_dict (spec o) (new ∪ cur) >>
  set_metadata db (fun m => with_generation (generation m + 1) m) >>
  set_status db (with_phase "Updating").

Definition update_database (name : string) (new_spec : loc) : M unit :=
  let* dbs := gets databases in
  match od_lookup name dbs with
  | None => logger_error ("Database " +:+ name +:+ " not found")
  | Some db =>
      let* new := read_dict new_spec in
      let* o := read_obj db in
      let* cur := read_dict (spec o) in
      match changes cur new with
      | [] => ret tt
      | _ :: _ => accept_update db new_spec >> reconcile name
      end
  end.

(** ** [delete_database] *)
Definition delete_database (name : string) : M unit :=
  let* dbs := gets databases in
  match od_lookup name dbs with
  | None => logger_error ("Database " +:+ name +:+ " not found")
  | Some db =>
      set_status db (with_phase "Deleting") >>
      reconcile name
  end.

(** ** [scale_database] *)
Definition scale_database (name : string) (replicas : Z) : M unit :=
  let* dbs := gets databases in
  match od_lookup name dbs with
  | None => logger_error ("Database " +:+ name +:+ " not found")
  | Some db =>
      let* o := read_obj db in
      let* d := read_dict (spec o) in
      write_dict (spec o) (<["replicas" := VInt replicas]> d)
  end.

(** ** [backup_database]: the backup name, or [None] for an unknown name *)
Definition backup_database (name : string) : M (option string) :=
  let* dbs := gets databases in
  match od_lookup name dbs with
  | None => logger_error ("Database " +:+ name +:+ " not found") >> ret None
  | Some _ =>
      let* t := now in
      ret (Some (name +:+ "-backup-" +:+ strftime t))
  end.

(** ** [get_database_status] and [list_databases] *)

Definition get_database_status (name : string) : M status_dict :=
  let* dbs := gets databases in
  match od_lookup name dbs with
  | None => ret (StatusError "Database not found")
  | Some db =>
      let* o := read_obj db in
      let* engine := subscript (spec o) "engine" in
      let* version := subscript (spec o) "version" in
      ret (StatusOf name engine version (phase (status o)) (ready (status o))
             (message (status o)) (created_at (metadata o))
             (generation (metadata o)) (health (status o)))
  end.

Fixpoint status_of_each (names : list string) : M (list status_dict) :=
  match names with
  | [] => ret []
  | n :: rest =>
      let* s := get_database_status n in
      let* ss := status_of_each rest in
      ret (s :: ss)
  end.

Definition list_databases : M (list status_dict) :=
  let* dbs := gets databases in
  status_of_each (od_keys dbs).

(** ** The states the program can be in *)

(** What a caller does with the operator: it builds a dict to pass as a
    spec, and it calls one of the methods.  A caller that writes into a dict
    or an object behind the operator's back is not using the operator, and
    is not a call. *)
Inductive call : Type :=
  | NewDict (d : gmap string value)
  | CreateDatabase (name : string) (spec : loc)
  | Reconcile (name : string)
  | UpdateDatabase (name : string) (spec : loc)
  | DeleteDatabase (name : string)
  | ScaleDatabase (name : string) (replicas : Z)
  | BackupDatabase (name : string)
  | GetDatabaseStatus (name : string)
  | ListDatabases.

(** The state a call leaves behind, whether it returns or raises. *)
Definition run (c : call) (w : World) : World :=
  match c with
  | NewDict d => (new_dict d w).2
  | CreateDatabase name spec => (create_database name spec w).2
  | Reconcile name => (reconcile name w).2
  | UpdateDatabase name spec => (update_database name spec w).2
  | DeleteDatabase name => (delete_database name w).2
  | ScaleDatabase name replicas => (scale_database name replicas w).2
  | BackupDatabase name => (backup_database name w).2
  | GetDatabaseStatus name => (get_database_status name w).2
  | ListDatabases => (list_databases w).2
  end.

Definition run_all (cs : list call) (w : World) : World :=
  foldl (fun w c => run c w) w cs.

Inductive reachable : World → Prop :=
  | reachable_init : reachable init
  | reachable_run c w : reachable w → reachable (run c w).

(** What the end of [reconcile] does to the state: one clock reading and
    one history entry. *)
Definition record_event (name phase : string) (w : World) : World :=
  set_history (fun h =>
    (h ++ [ {| Event.timestamp := clock (ticks w); Event.database := name;
               Event.phase := phase; Event.action := "reconciled" |} ])%list)
    (set_ticks S w).

(** A spec that passes the validation of [create_database]. *)
Definition has_required (d : gmap string value) : Prop :=
  Forall (fun field => is_Some (d !! field)) required_fields.

#[global] Instance has_required_dec d : Decision (has_required d).
Proof. unfold has_required. apply _. Defined.

(** The state a successful [create_database name spec] leaves: the new
    object is registered and has been reconciled once. *)
Definition created (name : string) (spec : loc) (w : World) : World :=
  let db := length (objects w) in
  let o := fresh_resource name spec (clock (ticks w)) in
  record_event name "Provisioning"
    (put_obj db (provisioned o)
       (set_databases (od_set name db)
          (set_objects (fun h => (h ++ [o])%list) (set_ticks S w)))).

(** The object an accepted update leaves at [db] before [reconcile] runs,
    and the state [update_database] ends in. *)
Definition accepted (o : DatabaseResource) : DatabaseResource :=
  map_status (with_phase "Updating")
    (map_metadata (fun m => with_generation (generation m + 1) m) o).

Definition update_accepted (db : loc) (o : DatabaseResource)
    (merged : gmap string value) (w : World) : World :=
  put_obj db (accepted o) (put_dict (spec o) merged w).

Definition update_applied (name : string) (db : loc) (o : DatabaseResource)
    (merged : gmap string value) (w : World) : World :=
  record_event name "Running"
    (put_obj db (updated (accepted o)) (put_dict (spec o) merged w)).

(** The state [delete_database] ends in. *)
Definition deleted (name : string) (db : loc) (o : DatabaseResource) (w : World) : World :=
  record_event name "Deleting"
    (set_databases (od_del name)
       (put_obj db (map_status (with_phase "Deleting") o) w)).

(** The name in a status view. *)
Definition status_name (s : status_dict) : option string :=
  match s with
  | StatusError _ => None
  | StatusOf name _ _ _ _ _ _ _ _ => Some name
  end.

(** The view [get_database_status] builds of an object. *)
Definition status_view (name : string) (engine version : value)
    (o : DatabaseResource) : status_dict :=
  StatusOf name engine version (phase (status o)) (ready (status o))
    (message (status o)) (created_at (metadata o))
    (generation (metadata o)) (health (status o)).

(** ** The invariant of the registry

    Between two calls, a registered resource is either being provisioned or
    running, and only a running one is ready. *)
Definition settled (s : Status) : Prop :=
  (phase s = "Provisioning" ∨ phase s = "Running")
  ∧ (ready s = true → phase s = "Running").

(** Every name is bound to a live object that carries this name; its spec
    is a live dict with the required fields; its status is settled. *)
Definition well_formed (w : World) : Prop :=
  ∀ n db, od_lookup n (databases w) = Some db →
    ∃ o d, objects w !! db = Some o ∧ name o = n
           ∧ dicts w !! spec o = Some d ∧ has_required d
           ∧ settled (status o).

(** The resource stored under a name, if any. *)
Definition resource_at (w : World) (name : string) : option DatabaseResource :=
  match od_lookup name (databases w) with
  | Some db => objects w !! db
  | None => None
  end.

(** The spec dict of a resource. *)
Definition spec_of (w : World) (o : DatabaseResource) : option (gmap string value) :=
  dicts w !! spec o.

(** The property the status flags are meant to have: a ready resource is
    running. *)
Definition ready_only_when_running (w : World) : Prop :=
  ∀ n o, resource_at w n = Some o →
         ready (status o) = true → phase (status o) = "Running".
End operator.

(** ** A scenario

    One dict, the spec of the demo's production database, and one resource
    created from it, with a clock that stands still at noon of 2024-01-01. *)
Definition noon : datetime :=
  {| year := 2024; month := 1; day := 1; hour := 12; minute := 0; second := 0 |}.

Definition fixed_clock : nat → datetime := fun _ => noon.

Definition prod_spec : gmap string value :=
  {[ "engine" := VStr "postgresql"; "version" := VStr "14.9";
     "storage" := VStr "100Gi" ]}.

Definition scenario_created (clock : nat → datetime) : World :=
  run_all clock [NewDict prod_spec; CreateDatabase "prod-db" 0%nat] init.

Definition scenario_reconciled (clock : nat → datetime) : World :=
  run clock (Reconcile "prod-db") (scenario_created clock).

Definition scenario_reconciled_twice (clock : nat → datetime) : World :=
  run clock (Reconcile "prod-db") (scenario_reconciled clock).

(** The caller then builds [{'version': '15.0'}], the dict at location 1, and
    asks for that update; [scenario_updating] is the state in which
    [update_database] calls [reconcile]. *)
Definition scenario_update_requested : World :=
  run fixed_clock (NewDict {[ "version" := VStr "15.0" ]}) (scenario_reconciled fixed_clock).

Definition scenario_updating : World :=
  (accept_update 0%nat 1%nat scenario_update_requested).2.

(** Or the caller builds [{'notes': None}], a key the spec of [prod-db] does
    not have. *)
Definition scenario_notes_update_requested : World :=
  run fixed_clock (NewDict {[ "notes" := VNone ]}) (scenario_reconciled fixed_clock).



(** ** What no operation undoes *)

(** An object at a later time: same name, same spec dict, same creation
    time; the generation has not gone down; [ready], [connection_string] and
    [health] are still there if they were. *)
Definition obj_evolves (o o' : DatabaseResource) : Prop :=
  name o' = name o ∧ spec o' = spec o
  ∧ created_at (metadata o') = created_at (metadata o)
  ∧ generation (metadata o) ≤ generation (metadata o')
  ∧ (ready (status o) = true → ready (status o') = true)
  ∧ (is_Some (connection_string (status o)) → is_Some (connection_string (status o')))
  ∧ (is_Some (health (status o)) → is_Some (health (status o'))).

(** A state at a later time: history and ERROR log have only been appended
    to, the clock has only been read, every object has evolved, and no dict
    has lost a key. *)
Definition extends (w w' : World) : Prop :=
  reconciliation_history w `prefix_of` reconciliation_history w'
  ∧ error_log w `prefix_of` error_log w'
  ∧ (ticks w ≤ ticks w')%nat
  ∧ (∀ l o, objects w !! l = Some o →
            ∃ o', objects w' !! l = Some o' ∧ obj_evolves o o')
  ∧ (∀ l (d : gmap string value), dicts w !! l = Some d →
            ∃ d', dicts w' !! l = Some d' ∧ dom d ⊆ dom d').

(** A status write that clears nothing. *)
Definition keeps_flags (f : Status → Status) : Prop :=
  ∀ s, (ready s = true → ready (f s) = true)
       ∧ (is_Some (connection_string s) → is_Some (connection_string (f s)))
       ∧ (is_Some (health s) → is_Some (health (f s))).

(** A computation that undoes nothing, from whatever state it starts and
    whether it returns or raises. *)
Definition respects {A} (m : M A) : Prop := ∀ w, extends w (m w).2.

(** ** One call, as a transition *)

(** The name a call is made for. *)
Definition call_name (c : call) : option string :=
  match c with
  | CreateDatabase n _ | Reconcile n | UpdateDatabase n _ | DeleteDatabase n
  | ScaleDatabase n _ | BackupDatabase n | GetDatabaseStatus n => Some n
  | NewDict _ | ListDatabases => None
  end.

(** The calls that answer an unknown name with an ERROR line. *)
Definition logs_unknown (c : call) : bool :=
  match c with
  | Reconcile _ | UpdateDatabase _ _ | DeleteDatabase _ | ScaleDatabase _ _
  | BackupDatabase _ => true
  | _ => false
  end.

(** The state after the ERROR line for an unknown name. *)
Definition not_found (n : string) (w : World) : World :=
  set_error_log (fun e => (e ++ ["Database " +:+ n +:+ " not found"])%list) w.

(** [n] is bound to the live object [o] at [db], whose spec dict is [d]. *)
Definition registered (w : World) (n : string) (db : loc)
    (o : DatabaseResource) (d : gmap string value) : Prop :=
  od_lookup n (databases w) = Some db ∧ objects w !! db = Some o ∧ name o = n
  ∧ dicts w !! spec o = Some d ∧ has_required d ∧ settled (status o).

Section transitions.
Variable clock : nat → datetime.

(** What each call does to a well-formed state, case by case. *)
Inductive step : call → World → World → Prop :=
  | step_new_dict w d :
      step (NewDict d) w (set_dicts (fun h => (h ++ [d])%list) w)
  | step_create w n l d :
      dicts w !! l = Some d → has_required d →
      step (CreateDatabase n l) w (created clock n l w)
  | step_create_rejected w n l :
      (∀ d, dicts w !! l = Some d → ¬ has_required d) →
      step (CreateDatabase n l) w w
  | step_unknown w c n :
      logs_unknown c = true → call_name c = Some n →
      od_lookup n (databases w) = None →
      step c w (not_found n w)
  | step_reconcile_provisioning w n db o d e :
      registered w n db o d → phase (status o) = "Provisioning" →
      d !! "engine" = Some e →
      step (Reconcile n) w (record_event clock n "Running" (put_obj db (running e o) w))
  | step_reconcile_running w n db o d :
      registered w n db o d → phase (status o) = "Running" →
      step (Reconcile n) w (record_event clock n "Running" (put_obj db (healthy o) w))
  | step_update_no_dict w n l db o d :
      registered w n db o d → dicts w !! l = None →
      step (UpdateDatabase n l) w w
  | step_update_same w n l db o cur new :
      registered w n db o cur → dicts w !! l = Some new → changes cur new = [] →
      step (UpdateDatabase n l) w w
  | step_update_applied w n l db o cur new :
      registered w n db o cur → dicts w !! l = Some new → changes cur new ≠ [] →
      step (UpdateDatabase n l) w (update_applied clock n db o (new ∪ cur) w)
  | step_delete w n db o d :
      registered w n db o d →
      step (DeleteDatabase n) w (deleted clock n db o w)
  | step_scale w n r db o d :
      registered w n db o d →
      step (ScaleDatabase n r) w (put_dict (spec o) (<["replicas" := VInt r]> d) w)
  | step_backup w n db o d :
      registered w n db o d →
      step (BackupDatabase n) w (set_ticks S w)
  | step_get_database_status w n :
      step (GetDatabaseStatus n) w w
  | step_list_databases w :
      step ListDatabases w w.
End transitions.

(** The entry [reconcile] appends to the history. *)
Definition reconciled (t : datetime) (n p : string) : Event.t :=
  {| Event.timestamp := t; Event.database := n; Event.phase := p;
     Event.action := "reconciled" |}.

(** What one call can do to one object: nothing, or the effect of the
    handler that a call for the object's name runs. *)
Inductive obj_step (c : call) (o : DatabaseResource) : DatabaseResource → Prop :=
  | obj_same : obj_step c o o
  | obj_checked e :
      c = Reconcile (name o) → phase (status o) = "Provisioning" →
      obj_step c o (running e o)
  | obj_monitored :
      c = Reconcile (name o) → phase (status o) = "Running" →
      obj_step c o (healthy o)
  | obj_updated l :
      c = UpdateDatabase (name o) l →
      obj_step c o (updated (accepted o))
  | obj_deleted :
      c = DeleteDatabase (name o) →
      obj_step c o (map_status (with_phase "Deleting") o).

(** ** [print_status_report]

    The report is modelled by what it writes: the computation returns the
    arguments of its [print] calls, in order.  Strings are byte strings, so
    the two status icons are their UTF-8 bytes, and [str.upper] is the ASCII
    one.  Clock readings are whole seconds, for which [str] of a
    [datetime] has no fraction. *)

Definition newline : string := String "010"%char "".

(** [s * n] *)
Fixpoint str_mul (s : string) (n : nat) : string :=
  match n with
  | O => ""
  | S n' => s +:+ str_mul s n'
  end.

(** [str(dt)] *)
Definition str_datetime (dt : datetime) : string :=
  four_digits (year dt) +:+ "-" +:+ two_digits (month dt) +:+ "-"
  +:+ two_digits (day dt) +:+ " " +:+ two_digits (hour dt) +:+ ":"
  +:+ two_digits (minute dt) +:+ ":" +:+ two_digits (second dt).

(** [dt.strftime('%H:%M:%S')] *)
Definition strftime_hms (dt : datetime) : string :=
  two_digits (hour dt) +:+ ":" +:+ two_digits (minute dt) +:+ ":"
  +:+ two_digits (second dt).

Definition upper_char (c : Ascii.ascii) : Ascii.ascii :=
  let n := Ascii.nat_of_ascii c in
  if (97 <=? n)%nat && (n <=? 122)%nat then Ascii.ascii_of_nat (n - 32) else c.

(** [s.upper()] *)
Fixpoint str_upper (s : string) : string :=
  match s with
  | EmptyString => EmptyString
  | String c s' => String (upper_char c) (str_upper s')
  end.

(** [h[-5:]] *)
Definition recent (h : list Event.t) : list Event.t :=
  drop (length h - 5) h.

Definition event_line (e : Event.t) : string :=
  "  [" +:+ strftime_hms (Event.timestamp e) +:+ "] " +:+ Event.database e
  +:+ ": " +:+ Event.action e +:+ " (phase: " +:+ Event.phase e +:+ ")".

(** The lines of one resource: five, and two more once it has health data. *)
Definition resource_lines (name : string) (db : loc) : M (list string) :=
  let* o := read_obj db in
  let status_icon := if ready (status o) then "✓" else "⋯" in
  let* engine := subscript (spec o) "engine" in
  let* version := subscript (spec o) "version" in
  let* storage := subscript (spec o) "storage" in
  let* d := read_dict (spec o) in
  let lines :=
    [ newline +:+ "  [" +:+ status_icon +:+ "] " +:+ name;
      "      Engine: " +:+ py_str engine +:+ " " +:+ py_str version;
      "      Phase: " +:+ phase (status o);
      "      Storage: " +:+ py_str storage;
      "      Replicas: " +:+ py_str (default (VInt 1) (d !! "replicas")) ] in
  match health (status o) with
  | Some h =>
      ret (lines ++ [ "      Health: " +:+ str_upper (Health.status h);
                      "      Connections: " +:+ pretty (Health.connections h) ])%list
  | None => ret lines
  end.

(** The loop over [self.databases.items()]. *)
Fixpoint each_resource_lines (items : list (string * loc)) : M (list string) :=
  match items with
  | [] => ret []
  | (name, db) :: rest =>
      let* ls := resource_lines name db in
      let* more := each_resource_lines rest in
      ret (ls ++ more)%list
  end.

Definition report_rule : string := str_mul "=" 80.

Definition print_status_report (clock : nat → datetime) : M (list string) :=
  let* t := now clock in
  let* dbs := gets databases in
  let* resources :=
    match dbs with
    | [] => ret []
    | _ :: _ =>
        let* ls := each_resource_lines dbs in
        ret ((newline +:+ "Database Resources:") :: ls)
    end in
  let* h := gets reconciliation_history in
  let events :=
    match h with
    | [] => []
    | _ :: _ => (newline +:+ "Recent Events:") :: (event_line <$> recent h)
    end in
  ret ([ newline +:+ report_rule;
         "KUBERNETES DATABASE OPERATOR - STATUS REPORT";
         report_rule;
         "Timestamp: " +:+ str_datetime t;
         "Total Databases: " +:+ pretty (length dbs) ]
       ++ resources
       ++ [ newline +:+ report_rule;
            "Reconciliation Events: " +:+ pretty (length h) ]
       ++ events ++ [ report_rule ])%list.

(** ** More scenarios

    An update requested before the first reconcile of [prod-db], and two
    resources built from one dict. *)
Definition scenario_early_update_requested : World :=
  run fixed_clock (NewDict {[ "version" := VStr "15.0" ]}) (scenario_created fixed_clock).

Definition scenario_early_updated : World :=
  run fixed_clock (UpdateDatabase "prod-db" 1%nat) scenario_early_update_requested.

Definition scenario_shared : World :=
  run_all fixed_clock
    [ NewDict prod_spec; CreateDatabase "blue" 0%nat; CreateDatabase "green" 0%nat;
      NewDict {[ "version" := VStr "15.0" ]} ] init.

Definition scenario_deleted : World :=
  run fixed_clock (DeleteDatabase "prod-db") (scenario_reconciled fixed_clock).

(** The caller has deleted [engine] from the dict it created [prod-db] with. *)
Definition scenario_engine_removed : World :=
  put_dict 0%nat (delete "engine" prod_spec) (scenario_created fixed_clock).

(** * Properties *)

(** ** Ordered dictionaries *)

Section ordered_dict_facts.
Context {V : Type}.
Implicit Types (d : list (string * V)) (k : string) (v : V).

Lemma od_lookup_set_eq d k v : od_lookup k (od_set k v d) = Some v.
Proof.
  induction d as [|[k' v'] d IH]; simpl.
  - by rewrite decide_True.
  - destruct (decide (k = k')) as [->|Hne]; simpl.
    + by rewrite decide_True.
    + by rewrite decide_False.
Qed.

Lemma od_lookup_set_ne d k k' v :
  k ≠ k' → od_lookup k' (od_set k v d) = od_lookup k' d.
Proof.
  intros Hne. induction d as [|[k0 v0] d IH]; simpl.
  - by rewrite decide_False.
  - destruct (decide (k = k0)) as [->|Hk]; simpl.
    + by rewrite !decide_False.
    + destruct (decide (k' = k0)); [done | apply IH].
Qed.

Lemma od_lookup_del_eq d k : od_lookup k (od_del k d) = None.
Proof.
  unfold od_del. induction d as [|[k' v'] d IH]; [done |].
  rewrite filter_cons. simpl. destruct (decide (k' ≠ k)) as [Hne|Heq]; simpl.
  - rewrite decide_False; [apply IH | congruence].
  - apply IH.
Qed.

Lemma od_lookup_del_ne d k k' :
  k ≠ k' → od_lookup k' (od_del k d) = od_lookup k' d.
Proof.
  intros Hne. unfold od_del. induction d as [|[k0 v0] d IH]; [done |].
  rewrite filter_cons. simpl. destruct (decide (k0 ≠ k)) as [Hk|Hk]; simpl.
  - by rewrite IH.
  - apply dec_stable in Hk. subst k0. rewrite IH. by rewrite decide_False.
Qed.

Lemma od_lookup_None_keys d k : od_lookup k d = None ↔ k ∉ od_keys d.
Proof.
  unfold od_keys. induction d as [|[k' v'] d IH]; simpl.
  - split; [intros _; apply not_elem_of_nil | done].
  - rewrite not_elem_of_cons. destruct (decide (k = k')) as [->|Hne].
    + split; [done | intros [? _]; done].
    + rewrite IH. tauto.
Qed.
Lemma od_keys_lookup d k : k ∈ od_keys d → is_Some (od_lookup k d).
Proof.
  intros Hin. destruct (od_lookup k d) eqn:Hl; [by eauto |].
  by apply od_lookup_None_keys in Hl.
Qed.

Lemma od_keys_set_new d k v :
  od_lookup k d = None → od_keys (od_set k v d) = (od_keys d ++ [k])%list.
Proof.
  unfold od_keys. induction d as [|[k' v'] d IH]; csimpl; [done |].
  destruct (decide (k = k')); [done |]. intros H. csimpl. f_equal. by apply IH.
Qed.

Lemma od_keys_set_old d k v v0 :
  od_lookup k d = Some v0 → od_keys (od_set k v d) = od_keys d.
Proof.
  unfold od_keys. induction d as [|[k' v'] d IH]; csimpl; [done |].
  destruct (decide (k = k')) as [->|]; [done |]. intros H. csimpl. f_equal. by apply IH.
Qed.

Lemma od_keys_del d k : od_keys (od_del k d) = filter (fun k' => k' ≠ k) (od_keys d).
Proof.
  unfold od_keys, od_del. induction d as [|[k' v'] d IH]; [done |].
  rewrite filter_cons. csimpl. rewrite filter_cons. simpl.
  destruct (decide (k' ≠ k)); csimpl; by rewrite IH.
Qed.

(** Keys stay unique, as in a dict. *)
Lemma od_set_NoDup d k v : NoDup (od_keys d) → NoDup (od_keys (od_set k v d)).
Proof.
  intros Hnd. destruct (od_lookup k d) as [v0|] eqn:Hl.
  - by erewrite od_keys_set_old.
  - rewrite od_keys_set_new by done. apply NoDup_app. split_and!.
    + done.
    + intros x Hx Hk. apply list_elem_of_singleton in Hk as ->.
      by apply od_lookup_None_keys in Hl.
    + apply NoDup_singleton.
Qed.

Lemma od_del_NoDup d k : NoDup (od_keys d) → NoDup (od_keys (od_del k d)).
Proof. intros Hnd. rewrite od_keys_del. by apply NoDup_filter. Qed.
End ordered_dict_facts.

(** ** Running the primitive steps *)

Lemma bind_returned {A B} (m : M A) (k : A → M B) w a w' :
  m w = (Returned a, w') → bind m k w = k a w'.
Proof. unfold bind. by intros ->. Qed.

Lemma bind_raised {A B} (m : M A) (k : A → M B) w e w' :
  m w = (Raised e, w') → bind m k w = (Raised e, w').
Proof. unfold bind. by intros ->. Qed.

Lemma gets_ok {A} (f : World → A) w : gets f w = (Returned (f w), w).
Proof. reflexivity. Qed.

Lemma modify_ok f w : modify f w = (Returned tt, f w).
Proof. reflexivity. Qed.

Lemma now_ok clock w : now clock w = (Returned (clock (ticks w)), set_ticks S w).
Proof. reflexivity. Qed.

Lemma read_obj_ok w l o : objects w !! l = Some o → read_obj l w = (Returned o, w).
Proof. unfold read_obj. by intros ->. Qed.

Lemma read_dict_ok w l d : dicts w !! l = Some d → read_dict l w = (Returned d, w).
Proof. unfold read_dict. by intros ->. Qed.

Lemma write_obj_ok w l o0 o :
  objects w !! l = Some o0 → write_obj l o w = (Returned tt, put_obj l o w).
Proof. intros H. unfold write_obj. by rewrite (bind_returned _ _ _ _ _ (read_obj_ok _ _ _ H)). Qed.

Lemma write_dict_ok w l d0 d :
  dicts w !! l = Some d0 → write_dict l d w = (Returned tt, put_dict l d w).
Proof. intros H. unfold write_dict. by rewrite (bind_returned _ _ _ _ _ (read_dict_ok _ _ _ H)). Qed.

Lemma subscript_ok w l d k v :
  dicts w !! l = Some d → d !! k = Some v → subscript l k w = (Returned v, w).
Proof.
  intros Hd Hk. unfold subscript.
  rewrite (bind_returned _ _ _ _ _ (read_dict_ok _ _ _ Hd)). by rewrite Hk.
Qed.

Lemma subscript_missing w l d k :
  dicts w !! l = Some d → d !! k = None → subscript l k w = (Raised (KeyError k), w).
Proof.
  intros Hd Hk. unfold subscript.
  rewrite (bind_returned _ _ _ _ _ (read_dict_ok _ _ _ Hd)). by rewrite Hk.
Qed.

Lemma set_status_ok w l o f :
  objects w !! l = Some o → set_status l f w = (Returned tt, put_obj l (map_status f o) w).
Proof.
  intros H. unfold set_status.
  rewrite (bind_returned _ _ _ _ _ (read_obj_ok _ _ _ H)). by eapply write_obj_ok.
Qed.

Lemma set_metadata_ok w l o f :
  objects w !! l = Some o →
  set_metadata l f w = (Returned tt, put_obj l (map_metadata f o) w).
Proof.
  intros H. unfold set_metadata.
  rewrite (bind_returned _ _ _ _ _ (read_obj_ok _ _ _ H)). by eapply write_obj_ok.
Qed.

Lemma objects_put_obj_eq w l o0 o :
  objects w !! l = Some o0 → objects (put_obj l o w) !! l = Some o.
Proof. intros H. simpl. apply list_lookup_insert_eq. by eapply lookup_lt_Some. Qed.

Lemma objects_put_obj_ne w l l' o :
  l ≠ l' → objects (put_obj l o w) !! l' = objects w !! l'.
Proof. intros H. simpl. by apply list_lookup_insert_ne. Qed.

Lemma put_obj_put_obj w l o1 o2 : put_obj l o2 (put_obj l o1 w) = put_obj l o2 w.
Proof. unfold put_obj, set_objects. simpl. by rewrite list_insert_insert_eq. Qed.

Lemma dicts_put_dict_eq w l d0 d :
  dicts w !! l = Some d0 → dicts (put_dict l d w) !! l = Some d.
Proof. intros H. simpl. apply list_lookup_insert_eq. by eapply lookup_lt_Some. Qed.

Lemma dicts_put_dict_ne w l l' d :
  l ≠ l' → dicts (put_dict l d w) !! l' = dicts w !! l'.
Proof. intros H. simpl. by apply list_lookup_insert_ne. Qed.

(** ** Running the phase handlers *)

Ltac run_step lem :=
  erewrite bind_returned; [ | eapply lem; eauto using objects_put_obj_eq ].

Lemma provision_database_ok w db o d e v :
  objects w !! db = Some o → dicts w !! spec o = Some d →
  d !! "engine" = Some e → d !! "version" = Some v →
  _provision_database db w = (Returned tt, put_obj db (provisioned o) w).
Proof.
  intros Ho Hd He Hv. unfold _provision_database.
  run_step read_obj_ok. run_step subscript_ok. run_step subscript_ok.
  run_step set_status_ok.
  erewrite set_status_ok by eauto using objects_put_obj_eq.
  by rewrite put_obj_put_obj.
Qed.

Lemma check_provisioning_status_ok w db o d e :
  objects w !! db = Some o → dicts w !! spec o = Some d → d !! "engine" = Some e →
  _check_provisioning_status db w = (Returned tt, put_obj db (running e o) w).
Proof.
  intros Ho Hd He. unfold _check_provisioning_status.
  run_step set_status_ok. run_step set_status_ok. run_step set_status_ok.
  run_step read_obj_ok. rewrite !put_obj_put_obj.
  run_step subscript_ok.
  erewrite set_status_ok by eauto using objects_put_obj_eq.
  by rewrite put_obj_put_obj.
Qed.

Lemma monitor_health_ok w db o :
  objects w !! db = Some o →
  _monitor_health db w = (Returned tt, put_obj db (healthy o) w).
Proof. intros Ho. unfold _monitor_health. by erewrite set_status_ok. Qed.

Lemma apply_update_ok w db o d v :
  objects w !! db = Some o → dicts w !! spec o = Some d → d !! "version" = Some v →
  _apply_update db w = (Returned tt, put_obj db (updated o) w).
Proof.
  intros Ho Hd Hv. unfold _apply_update.
  run_step read_obj_ok. run_step subscript_ok. run_step set_status_ok.
  erewrite set_status_ok by eauto using objects_put_obj_eq.
  by rewrite put_obj_put_obj.
Qed.

Lemma delete_database_handler_ok w db o l :
  objects w !! db = Some o → od_lookup (name o) (databases w) = Some l →
  _delete_database db w = (Returned tt, set_databases (od_del (name o)) w).
Proof.
  intros Ho Hl. unfold _delete_database. run_step read_obj_ok.
  unfold del_database, bind, gets. by rewrite Hl.
Qed.

(** ** Running [reconcile] *)

Section reconcile_facts.
Variable clock : nat → datetime.

Lemma reconcile_unknown w name :
  od_lookup name (databases w) = None →
  reconcile clock name w
  = (Returned tt,
     set_error_log (fun l => (l ++ ["Database " +:+ name +:+ " not found"])%list) w).
Proof. intros H. unfold reconcile, bind, gets. by rewrite H. Qed.

(** [reconcile] on a known name, in terms of what the handler does. *)
Lemma reconcile_known w name db o wh o' :
  od_lookup name (databases w) = Some db →
  objects w !! db = Some o →
  (if decide (phase (status o) = "Pending") then _provision_database db
   else if decide (phase (status o) = "Provisioning") then _check_provisioning_status db
   else if decide (phase (status o) = "Running") then _monitor_health db
   else if decide (phase (status o) = "Updating") then _apply_update db
   else if decide (phase (status o) = "Deleting") then _delete_database db
   else ret tt) w = (Returned tt, wh) →
  objects wh !! db = Some o' →
  reconcile clock name w
  = (Returned tt, record_event clock name (phase (status o')) wh).
Proof.
  intros Hl Ho Hh Ho'. unfold reconcile.
  run_step @gets_ok. rewrite Hl.
  run_step read_obj_ok. rewrite (bind_returned _ _ _ _ _ Hh).
  run_step now_ok.
  erewrite bind_returned; [ | by apply read_obj_ok ].
  reflexivity.
Qed.

Lemma reconcile_pending w name db o d e v :
  od_lookup name (databases w) = Some db → objects w !! db = Some o →
  phase (status o) = "Pending" →
  dicts w !! spec o = Some d → d !! "engine" = Some e → d !! "version" = Some v →
  reconcile clock name w
  = (Returned tt, record_event clock name "Provisioning" (put_obj db (provisioned o) w)).
Proof.
  intros Hl Ho Hp Hd He Hv.
  rewrite (reconcile_known w name db o (put_obj db (provisioned o) w) (provisioned o));
    [done | done | done | | by eapply objects_put_obj_eq].
  rewrite Hp, decide_True by done. by eapply provision_database_ok.
Qed.

Lemma reconcile_provisioning w name db o d e :
  od_lookup name (databases w) = Some db → objects w !! db = Some o →
  phase (status o) = "Provisioning" →
  dicts w !! spec o = Some d → d !! "engine" = Some e →
  reconcile clock name w
  = (Returned tt, record_event clock name "Running" (put_obj db (running e o) w)).
Proof.
  intros Hl Ho Hp Hd He.
  rewrite (reconcile_known w name db o (put_obj db (running e o) w) (running e o));
    [done | done | done | | by eapply objects_put_obj_eq].
  rewrite Hp, decide_False, decide_True by done.
  by eapply check_provisioning_status_ok.
Qed.

Lemma reconcile_running w name db o :
  od_lookup name (databases w) = Some db → objects w !! db = Some o →
  phase (status o) = "Running" →
  reconcile clock name w
  = (Returned tt, record_event clock name "Running" (put_obj db (healthy o) w)).
Proof.
  intros Hl Ho Hp.
  rewrite (reconcile_known w name db o (put_obj db (healthy o) w) (healthy o));
    [by simpl; rewrite Hp | done | done | | by eapply objects_put_obj_eq].
  rewrite Hp, !decide_False, decide_True by done. by eapply monitor_health_ok.
Qed.

Lemma reconcile_updating w name db o d v :
  od_lookup name (databases w) = Some db → objects w !! db = Some o →
  phase (status o) = "Updating" →
  dicts w !! spec o = Some d → d !! "version" = Some v →
  reconcile clock name w
  = (Returned tt, record_event clock name "Running" (put_obj db (updated o) w)).
Proof.
  intros Hl Ho Hp Hd Hv.
  rewrite (reconcile_known w name db o (put_obj db (updated o) w) (updated o));
    [done | done | done | | by eapply objects_put_obj_eq].
  rewrite Hp, !decide_False, decide_True by done. by eapply apply_update_ok.
Qed.

Lemma reconcile_deleting w n db o :
  od_lookup n (databases w) = Some db → objects w !! db = Some o →
  phase (status o) = "Deleting" → name o = n →
  reconcile clock n w
  = (Returned tt, record_event clock n "Deleting" (set_databases (od_del n) w)).
Proof.
  intros Hl Ho Hp Hn.
  rewrite (reconcile_known w n db o (set_databases (od_del n) w) o);
    [by rewrite Hp | done | done | | done].
  rewrite Hp, !decide_False, decide_True by done. subst n.
  by eapply delete_database_handler_ok.
Qed.
End reconcile_facts.

(** ** Running [create_database] *)

Section create_facts.
Variable clock : nat → datetime.

Lemma elem_of_required_fields f :
  f ∈ required_fields ↔ f = "engine" ∨ f = "version" ∨ f = "storage".
Proof. unfold required_fields. rewrite !elem_of_cons, elem_of_nil. tauto. Qed.

Lemma has_required_lookup d :
  has_required d ↔
  is_Some (d !! "engine") ∧ is_Some (d !! "version") ∧ is_Some (d !! "storage").
Proof.
  unfold has_required, required_fields. rewrite !Forall_cons, Forall_nil. tauto.
Qed.

Lemma check_fields_ok fields w l d :
  dicts w !! l = Some d → Forall (fun f => is_Some (d !! f)) fields →
  check_fields fields l w = (Returned tt, w).
Proof.
  intros Hd. induction 1 as [|f fs [v Hv] _ IH]; simpl; [done |].
  run_step read_dict_ok. by rewrite Hv.
Qed.

(** A validation that fails names the first missing field and changes
    nothing. *)
Lemma check_fields_missing fields w l d :
  dicts w !! l = Some d → ¬ Forall (fun f => is_Some (d !! f)) fields →
  ∃ f, f ∈ fields ∧ d !! f = None ∧
       check_fields fields l w
       = (Raised (ValueError ("Missing required field: " +:+ f)), w).
Proof.
  intros Hd. induction fields as [|f fs IH]; intros Hno.
  - destruct Hno. constructor.
  - simpl. destruct (d !! f) as [v|] eqn:Hf.
    + destruct IH as (f' & Hin & Hnone & Hrun).
      { intros Hall. apply Hno. constructor; [by rewrite Hf | done]. }
      exists f'. split_and!; [by right | done |].
      run_step read_dict_ok. by rewrite Hf.
    + exists f. split_and!; [by left | done |].
      run_step read_dict_ok. by rewrite Hf.
Qed.

Lemma create_database_ok w n l d :
  dicts w !! l = Some d → has_required d →
  create_database clock n l w = (Returned (length (objects w)), created clock n l w).
Proof.
  intros Hd Hreq. unfold create_database.
  run_step check_fields_ok. unfold DatabaseResource_init.
  erewrite bind_returned; cycle 1.
  { run_step now_ok. reflexivity. }
  run_step modify_ok.
  pose proof (has_required_lookup d) as [Hk _].
  destruct (Hk Hreq) as ([e He] & [v Hv] & _).
  erewrite bind_returned; cycle 1.
  { eapply reconcile_pending with (o := fresh_resource n l (clock (ticks w))).
    - simpl. apply od_lookup_set_eq.
    - simpl. rewrite lookup_app_r by done. by rewrite Nat.sub_diag.
    - done.
    - simpl. exact Hd.
    - exact He.
    - exact Hv. }
  reflexivity.
Qed.
End create_facts.

(** ** Running the other operations *)

Section operation_facts.
Variable clock : nat → datetime.

Lemma changes_nil cur new :
  changes cur new = [] ↔ ∀ k v, new !! k = Some v → dict_get cur k = v.
Proof.
  unfold changes. split.
  - intros Hnil k v Hk. apply elem_of_map_to_list in Hk.
    destruct (decide (dict_get cur k = v)) as [|Hne]; [done |].
    assert ((k, v) ∈ filter (fun kv => dict_get cur kv.1 ≠ kv.2) (map_to_list new)) as Hin
      by (apply list_elem_of_filter; split; done).
    rewrite Hnil in Hin. by apply elem_of_nil in Hin.
  - intros Hall.
    destruct (filter _ (map_to_list new)) as [|[k v] rest] eqn:Hf; [done |].
    assert ((k, v) ∈ filter (fun kv => dict_get cur kv.1 ≠ kv.2) (map_to_list new)) as Hin
      by (rewrite Hf; left).
    apply list_elem_of_filter in Hin as [Hne Hin]. apply elem_of_map_to_list in Hin.
    destruct Hne. by apply Hall.
Qed.

Lemma changes_cons cur new :
  changes cur new ≠ [] ↔ ∃ k v, new !! k = Some v ∧ dict_get cur k ≠ v.
Proof.
  rewrite changes_nil. split.
  - intros Hne. apply dec_stable. intros Hno. apply Hne. intros k v Hk.
    apply dec_stable. intros Hd. apply Hno. eauto.
  - intros (k & v & Hk & Hd) Hall. apply Hd. by apply Hall.
Qed.

Lemma accept_update_ok w db l o cur new :
  objects w !! db = Some o → dicts w !! spec o = Some cur → dicts w !! l = Some new →
  accept_update db l w = (Returned tt, update_accepted db o (new ∪ cur) w).
Proof.
  intros Ho Hc Hn. unfold accept_update.
  run_step read_obj_ok. run_step read_dict_ok. run_step read_dict_ok.
  run_step write_dict_ok. run_step set_metadata_ok.
  erewrite set_status_ok; cycle 1.
  { eapply objects_put_obj_eq. simpl. exact Ho. }
  unfold update_accepted. by rewrite put_obj_put_obj.
Qed.

Lemma update_database_unknown w n l :
  od_lookup n (databases w) = None →
  update_database clock n l w
  = (Returned tt,
     set_error_log (fun e => (e ++ ["Database " +:+ n +:+ " not found"])%list) w).
Proof. intros H. unfold update_database, bind, gets. by rewrite H. Qed.

Lemma update_database_same w n l db o cur new :
  od_lookup n (databases w) = Some db → objects w !! db = Some o →
  dicts w !! spec o = Some cur → dicts w !! l = Some new →
  changes cur new = [] →
  update_database clock n l w = (Returned tt, w).
Proof.
  intros Hl Ho Hc Hn Hch. unfold update_database.
  run_step @gets_ok. rewrite Hl.
  run_step read_dict_ok. run_step read_obj_ok. run_step read_dict_ok.
  by rewrite Hch.
Qed.

Lemma update_database_changed w n l db o cur new v :
  od_lookup n (databases w) = Some db → objects w !! db = Some o →
  dicts w !! spec o = Some cur → dicts w !! l = Some new →
  changes cur new ≠ [] → (new ∪ cur) !! "version" = Some v →
  update_database clock n l w
  = (Returned tt, update_applied clock n db o (new ∪ cur) w).
Proof.
  intros Hl Ho Hc Hn Hch Hv. unfold update_database.
  run_step @gets_ok. rewrite Hl.
  run_step read_dict_ok. run_step read_obj_ok. run_step read_dict_ok.
  destruct (changes cur new) as [|c cs]; [done |].
  run_step accept_update_ok.
  erewrite reconcile_updating with (o := accepted o); cycle 1.
  - exact Hl.
  - eapply objects_put_obj_eq. simpl. exact Ho.
  - done.
  - simpl. apply list_lookup_insert_eq. by eapply lookup_lt_Some.
  - exact Hv.
  - unfold update_applied, update_accepted. by rewrite put_obj_put_obj.
Qed.

Lemma delete_database_unknown w n :
  od_lookup n (databases w) = None →
  delete_database clock n w
  = (Returned tt,
     set_error_log (fun e => (e ++ ["Database " +:+ n +:+ " not found"])%list) w).
Proof. intros H. unfold delete_database, bind, gets. by rewrite H. Qed.

Lemma delete_database_ok w n db o :
  od_lookup n (databases w) = Some db → objects w !! db = Some o → name o = n →
  delete_database clock n w = (Returned tt, deleted clock n db o w).
Proof.
  intros Hl Ho Hname. unfold delete_database.
  run_step @gets_ok. rewrite Hl. run_step set_status_ok.
  erewrite reconcile_deleting with (o := map_status (with_phase "Deleting") o); cycle 1.
  - exact Hl.
  - by eapply objects_put_obj_eq.
  - done.
  - exact Hname.
  - done.
Qed.

Lemma scale_database_unknown w n r :
  od_lookup n (databases w) = None →
  scale_database n r w
  = (Returned tt,
     set_error_log (fun e => (e ++ ["Database " +:+ n +:+ " not found"])%list) w).
Proof. intros H. unfold scale_database, bind, gets. by rewrite H. Qed.

Lemma scale_database_ok w n r db o d :
  od_lookup n (databases w) = Some db → objects w !! db = Some o →
  dicts w !! spec o = Some d →
  scale_database n r w
  = (Returned tt, put_dict (spec o) (<["replicas" := VInt r]> d) w).
Proof.
  intros Hl Ho Hd. unfold scale_database.
  run_step @gets_ok. rewrite Hl. run_step read_obj_ok. run_step read_dict_ok.
  by erewrite write_dict_ok.
Qed.

Lemma backup_database_unknown w n :
  od_lookup n (databases w) = None →
  backup_database clock n w
  = (Returned None,
     set_error_log (fun e => (e ++ ["Database " +:+ n +:+ " not found"])%list) w).
Proof. intros H. unfold backup_database, bind, gets. by rewrite H. Qed.

Lemma backup_database_ok w n db :
  od_lookup n (databases w) = Some db →
  backup_database clock n w
  = (Returned (Some (n +:+ "-backup-" +:+ strftime (clock (ticks w)))), set_ticks S w).
Proof. intros H. unfold backup_database, bind, gets. by rewrite H. Qed.

Lemma get_database_status_unknown w n :
  od_lookup n (databases w) = None →
  get_database_status n w = (Returned (StatusError "Database not found"), w).
Proof. intros H. unfold get_database_status, bind, gets. by rewrite H. Qed.

Lemma get_database_status_ok w n db o d e v :
  od_lookup n (databases w) = Some db → objects w !! db = Some o →
  dicts w !! spec o = Some d → d !! "engine" = Some e → d !! "version" = Some v →
  get_database_status n w = (Returned (status_view n e v o), w).
Proof.
  intros Hl Ho Hd He Hv. unfold get_database_status.
  run_step @gets_ok. rewrite Hl. run_step read_obj_ok.
  run_step subscript_ok. run_step subscript_ok. reflexivity.
Qed.

(** The two readers change nothing, whether they return or raise. *)
Lemma get_database_status_pure w n : (get_database_status n w).2 = w.
Proof.
  cbv beta delta [get_database_status bind gets read_obj subscript read_dict ret raise].
  repeat case_match; by simplify_eq.
Qed.

Lemma status_of_each_pure w ns : (status_of_each ns w).2 = w.
Proof.
  induction ns as [|n ns IH]; [done |]. simpl. unfold bind.
  pose proof (get_database_status_pure w n) as Hg.
  destruct (get_database_status n w) as [[s|e] w1]; simpl in Hg; subst w1; [| done].
  destruct (status_of_each ns w) as [[ss|e] w2]; simpl in IH; by subst w2.
Qed.

Lemma list_databases_pure w : (list_databases w).2 = w.
Proof. unfold list_databases, bind, gets. apply status_of_each_pure. Qed.
End operation_facts.

(** ** The invariant is kept by every call *)

Section invariant.
Variable clock : nat → datetime.

Lemma has_required_union new cur : has_required cur → has_required (new ∪ cur).
Proof.
  unfold has_required. intros H. eapply Forall_impl; [exact H |]. intros f [v Hv].
  destruct (new !! f) as [v'|] eqn:Hn.
  - exists v'. by apply lookup_union_Some_l.
  - exists v. rewrite lookup_union_r; done.
Qed.

Lemma has_required_insert k v d : has_required d → has_required (<[k := v]> d).
Proof.
  unfold has_required. intros H. eapply Forall_impl; [exact H |]. intros f Hf.
  destruct (decide (k = f)) as [->|Hne].
  - rewrite lookup_insert_eq. eauto.
  - by rewrite lookup_insert_ne.
Qed.

(** The invariant reads the registry and the two object stores only. *)
Lemma well_formed_same w w' :
  databases w' = databases w → objects w' = objects w → dicts w' = dicts w →
  well_formed w → well_formed w'.
Proof. unfold well_formed. intros -> -> ->. done. Qed.

(** A step that touches one name only: the other names keep their
    bindings, the objects of the other names stay as they are, and no dict
    loses a required field. *)
Lemma well_formed_frame w w' n :
  well_formed w →
  (∀ n', n' ≠ n → od_lookup n' (databases w') = od_lookup n' (databases w)) →
  (∀ l o, objects w !! l = Some o → name o ≠ n → objects w' !! l = Some o) →
  (∀ l d, dicts w !! l = Some d → has_required d →
          ∃ d', dicts w' !! l = Some d' ∧ has_required d') →
  (∀ db, od_lookup n (databases w') = Some db →
         ∃ o d, objects w' !! db = Some o ∧ name o = n
                ∧ dicts w' !! spec o = Some d ∧ has_required d
                ∧ settled (status o)) →
  well_formed w'.
Proof.
  intros Hwf Hdb Hobj Hdict Hn n' db' Hl.
  destruct (decide (n' = n)) as [->|Hne]; [by apply Hn |].
  rewrite Hdb in Hl by done.
  destruct (Hwf _ _ Hl) as (o & d & Ho & Hname & Hd & Hreq & Hst).
  destruct (Hdict _ _ Hd Hreq) as (d' & Hd' & Hreq').
  exists o, d'. split_and!; try done. apply Hobj; [done | congruence].
Qed.

Lemma well_formed_new_dict w d : well_formed w → well_formed (new_dict d w).2.
Proof.
  intros Hwf n db Hl. simpl in Hl.
  destruct (Hwf _ _ Hl) as (o & d0 & Ho & Hname & Hd & Hreq & Hst).
  exists o, d0. split_and!; try done. simpl. by apply lookup_app_l_Some.
Qed.

Lemma well_formed_created w n l d :
  well_formed w → dicts w !! l = Some d → has_required d →
  well_formed (created clock n l w).
Proof.
  intros Hwf Hd Hreq. apply (well_formed_frame w _ n); [done | ..].
  - intros n' Hne. simpl. by apply od_lookup_set_ne.
  - intros l0 o Ho _. simpl.
    rewrite list_lookup_insert_ne.
    + by apply lookup_app_l_Some.
    + apply lookup_lt_Some in Ho. lia.
  - intros l0 d0 Hd0 Hr0. simpl. eauto.
  - intros db Hl. simpl in Hl. rewrite od_lookup_set_eq in Hl. simplify_eq.
    eexists _, d. simpl. split_and!.
    + apply list_lookup_insert_eq. rewrite length_app. simpl. lia.
    + done.
    + done.
    + done.
    + split; [by left | done].
Qed.

Lemma well_formed_create_database w n l :
  well_formed w → well_formed (create_database clock n l w).2.
Proof.
  intros Hwf. destruct (dicts w !! l) as [d|] eqn:Hd.
  - destruct (decide (has_required d)) as [Hreq|Hno].
    + erewrite create_database_ok by done. by eapply well_formed_created.
    + destruct (check_fields_missing required_fields w l d Hd Hno) as (f & _ & _ & Hrun).
      unfold create_database. by erewrite bind_raised.
  - unfold create_database. erewrite bind_raised; [done |].
    simpl. unfold bind, read_dict. by rewrite Hd.
Qed.

Lemma well_formed_reconcile w n :
  well_formed w → well_formed (reconcile clock n w).2.
Proof.
  intros Hwf. destruct (od_lookup n (databases w)) as [db|] eqn:Hl.
  - destruct (Hwf _ _ Hl) as (o & d & Ho & Hname & Hd & Hreq & [[Hp|Hp] Hready]).
    + apply has_required_lookup in Hreq as Hk. destruct Hk as ([e He] & _).
      erewrite reconcile_provisioning by done.
      apply (well_formed_frame w _ n); [done | done | | by eauto | ].
      * intros l0 o0 Ho0 Hne. simpl. rewrite list_lookup_insert_ne; [done |].
        intros <-. by simplify_eq.
      * intros db' Hl'. simpl in Hl'. rewrite Hl in Hl'. simplify_eq.
        exists (running e o), d. split_and!; try done.
        -- by eapply objects_put_obj_eq.
        -- split; [by right | done].
    + erewrite reconcile_running by done.
      apply (well_formed_frame w _ n); [done | done | | by eauto | ].
      * intros l0 o0 Ho0 Hne. simpl. rewrite list_lookup_insert_ne; [done |].
        intros <-. by simplify_eq.
      * intros db' Hl'. simpl in Hl'. rewrite Hl in Hl'. simplify_eq.
        exists (healthy o), d. split_and!; try done.
        -- by eapply objects_put_obj_eq.
        -- split; [by right | done].
  - rewrite reconcile_unknown by done. by eapply well_formed_same.
Qed.
Lemma well_formed_update_database w n l :
  well_formed w → well_formed (update_database clock n l w).2.
Proof.
  intros Hwf. destruct (od_lookup n (databases w)) as [db|] eqn:Hl.
  - destruct (Hwf _ _ Hl) as (o & cur & Ho & Hname & Hd & Hreq & [Hp Hready]).
    destruct (dicts w !! l) as [new|] eqn:Hnew.
    + destruct (decide (changes cur new = [])) as [Hsame|Hch].
      * by erewrite update_database_same.
      * pose proof (has_required_union new cur Hreq) as Hreq'.
        apply has_required_lookup in Hreq' as Hk. destruct Hk as (_ & [v Hv] & _).
        erewrite update_database_changed by done.
        apply (well_formed_frame w _ n); [done | done | | | ].
        -- intros l0 o0 Ho0 Hne. simpl. rewrite list_lookup_insert_ne; [done |].
           intros <-. by simplify_eq.
        -- intros l0 d0 Hd0 Hr0. simpl.
           destruct (decide (spec o = l0)) as [<-|Hne].
           ++ exists (new ∪ cur). split; [| done].
              apply list_lookup_insert_eq. by eapply lookup_lt_Some.
           ++ exists d0. by rewrite list_lookup_insert_ne.
        -- intros db' Hl'. simpl in Hl'. rewrite Hl in Hl'. simplify_eq.
           exists (updated (accepted o)), (new ∪ cur). split_and!; try done.
           ++ simpl. apply list_lookup_insert_eq. by eapply lookup_lt_Some.
           ++ simpl. apply list_lookup_insert_eq. by eapply lookup_lt_Some.
           ++ split; [by right | done].
    + unfold update_database.
      run_step @gets_ok. rewrite Hl.
      erewrite bind_raised; [done |]. unfold read_dict. by rewrite Hnew.
  - rewrite update_database_unknown by done. by eapply well_formed_same.
Qed.

Lemma well_formed_delete_database w n :
  well_formed w → well_formed (delete_database clock n w).2.
Proof.
  intros Hwf. destruct (od_lookup n (databases w)) as [db|] eqn:Hl.
  - destruct (Hwf _ _ Hl) as (o & d & Ho & Hname & Hd & Hreq & Hst).
    erewrite delete_database_ok by done.
    apply (well_formed_frame w _ n); [done | | | by eauto | ].
    + intros n' Hne. simpl. apply od_lookup_del_ne. done.
    + intros l0 o0 Ho0 Hne. simpl. rewrite list_lookup_insert_ne; [done |].
      intros <-. by simplify_eq.
    + intros db' Hl'. simpl in Hl'. by rewrite od_lookup_del_eq in Hl'.
  - rewrite delete_database_unknown by done. by eapply well_formed_same.
Qed.

Lemma well_formed_scale_database w n r :
  well_formed w → well_formed (scale_database n r w).2.
Proof.
  intros Hwf. destruct (od_lookup n (databases w)) as [db|] eqn:Hl.
  - destruct (Hwf _ _ Hl) as (o & d & Ho & Hname & Hd & Hreq & Hst).
    erewrite scale_database_ok by done.
    intros n' db' Hl'. simpl in Hl'.
    destruct (Hwf _ _ Hl') as (o' & d' & Ho' & Hname' & Hd' & Hreq' & Hst').
    destruct (decide (spec o = spec o')) as [Heq|Hne].
    + exists o', (<["replicas" := VInt r]> d). split_and!; try done.
      * simpl. rewrite <- Heq. apply list_lookup_insert_eq. by eapply lookup_lt_Some.
      * by apply has_required_insert.
    + exists o', d'. split_and!; try done. simpl. by rewrite list_lookup_insert_ne.
  - rewrite scale_database_unknown by done. by eapply well_formed_same.
Qed.

Lemma well_formed_backup_database w n :
  well_formed w → well_formed (backup_database clock n w).2.
Proof.
  intros Hwf. destruct (od_lookup n (databases w)) as [db|] eqn:Hl.
  - erewrite backup_database_ok by done. by eapply well_formed_same.
  - rewrite backup_database_unknown by done. by eapply well_formed_same.
Qed.

Lemma well_formed_run c w : well_formed w → well_formed (run clock c w).
Proof.
  intros Hwf. destruct c; simpl.
  - by apply well_formed_new_dict.
  - by apply well_formed_create_database.
  - by apply well_formed_reconcile.
  - by apply well_formed_update_database.
  - by apply well_formed_delete_database.
  - by apply well_formed_scale_database.
  - by apply well_formed_backup_database.
  - by rewrite get_database_status_pure.
  - by rewrite list_databases_pure.
Qed.

Lemma well_formed_init : well_formed init.
Proof. intros n db Hl. discriminate Hl. Qed.

Lemma reachable_well_formed w : reachable clock w → well_formed w.
Proof.
  induction 1 as [|c w _ IH]; [apply well_formed_init | by apply well_formed_run].
Qed.

Lemma reachable_run_all cs w : reachable clock w → reachable clock (run_all clock cs w).
Proof.
  revert w. induction cs as [|c cs IH]; intros w Hw; [done |].
  simpl. apply IH. by constructor.
Qed.
(** What a call can do to the registry: nothing, one assignment, or one
    deletion. *)
Lemma run_databases c w :
  well_formed w →
  databases (run clock c w) = databases w
  ∨ (∃ n db, databases (run clock c w) = od_set n db (databases w))
  ∨ (∃ n, databases (run clock c w) = od_del n (databases w)).
Proof.
  intros Hwf. destruct c as [d|n l|n|n l|n|n r|n|n|]; simpl.
  - by left.
  - destruct (dicts w !! l) as [d|] eqn:Hd.
    + destruct (decide (has_required d)) as [Hreq|Hno].
      * erewrite create_database_ok by done. right. left. by eexists _, _.
      * destruct (check_fields_missing required_fields w l d Hd Hno)
          as (f & _ & _ & Hrun).
        left. unfold create_database. by erewrite bind_raised.
    + left. unfold create_database. erewrite bind_raised; [done |].
      simpl. unfold bind, read_dict. by rewrite Hd.
  - left. destruct (od_lookup n (databases w)) as [db|] eqn:Hl.
    + destruct (Hwf _ _ Hl) as (o & d & Ho & Hname & Hd & Hreq & [[Hp|Hp] Hready]).
      * apply has_required_lookup in Hreq as Hk. destruct Hk as ([e He] & _).
        by erewrite reconcile_provisioning.
      * by erewrite reconcile_running.
    + by rewrite reconcile_unknown.
  - left. destruct (od_lookup n (databases w)) as [db|] eqn:Hl.
    + destruct (Hwf _ _ Hl) as (o & cur & Ho & Hname & Hd & Hreq & Hst).
      destruct (dicts w !! l) as [new|] eqn:Hnew.
      * destruct (decide (changes cur new = [])) as [Hsame|Hch].
        -- by erewrite update_database_same.
        -- pose proof (has_required_union new cur Hreq) as Hreq'.
           apply has_required_lookup in Hreq' as Hk. destruct Hk as (_ & [v Hv] & _).
           by erewrite update_database_changed.
      * unfold update_database. run_step @gets_ok. rewrite Hl.
        erewrite bind_raised; [done |]. unfold read_dict. by rewrite Hnew.
    + by rewrite update_database_unknown.
  - destruct (od_lookup n (databases w)) as [db|] eqn:Hl.
    + destruct (Hwf _ _ Hl) as (o & d & Ho & Hname & Hd & Hreq & Hst).
      erewrite delete_database_ok by done. right. right. by exists n.
    + left. by rewrite delete_database_unknown.
  - left. destruct (od_lookup n (databases w)) as [db|] eqn:Hl.
    + destruct (Hwf _ _ Hl) as (o & d & Ho & Hname & Hd & Hreq & Hst).
      by erewrite scale_database_ok.
    + by rewrite scale_database_unknown.
  - left. destruct (od_lookup n (databases w)) as [db|] eqn:Hl.
    + by erewrite backup_database_ok.
    + by rewrite backup_database_unknown.
  - left. by rewrite get_database_status_pure.
  - left. by rewrite list_databases_pure.
Qed.

(** The registry of a reachable state has every name once. *)
Lemma reachable_NoDup w : reachable clock w → NoDup (od_keys (databases w)).
Proof.
  induction 1 as [|c w Hreach IH]; [apply NoDup_nil_2 |].
  destruct (run_databases c w (reachable_well_formed w Hreach))
    as [-> | [(n & db & ->) | (n & ->)]].
  - done.
  - by apply od_set_NoDup.
  - by apply od_del_NoDup.
Qed.
End invariant.

(** * The claims *)

Section claims.
Variable clock : nat → datetime.

(** ** Creation *)

(** C8.  A spec that lacks one of [engine], [version], [storage] makes
    [create_database] raise [ValueError], naming the first missing field,
    and the whole state, registry and objects, is left as it was. *)
Theorem create_database_missing_field w n l d f :
  dicts w !! l = Some d → f ∈ required_fields → d !! f = None →
  ∃ f', f' ∈ required_fields ∧ d !! f' = None ∧
        create_database clock n l w
        = (Raised (ValueError ("Missing required field: " +:+ f')), w).
Proof.
  intros Hd Hf Hnone.
  destruct (check_fields_missing required_fields w l d Hd) as (f' & Hin & Hmiss & Hrun).
  - unfold has_required. rewrite Forall_forall. intros Hall.
    destruct (Hall f Hf) as [v Hv]. congruence.
  - exists f'. split_and!; [done | done |].
    unfold create_database. by erewrite bind_raised.
Qed.

(** C3, as the code has it.  For a valid spec and a name that is not
    registered, [create_database] returns a new object, registered last under
    that name, whose generation is 1 and whose phase is already
    [Provisioning]: the call reconciles the resource once before it
    returns, and that one reconciliation is recorded in the history. *)
Theorem create_database_returns_provisioning w n l d :
  od_lookup n (databases w) = None → dicts w !! l = Some d → has_required d →
  ∃ db w' o,
    create_database clock n l w = (Returned db, w')
    ∧ od_lookup n (databases w') = Some db
    ∧ od_keys (databases w') = (od_keys (databases w) ++ [n])%list
    ∧ objects w' !! db = Some o
    ∧ name o = n ∧ spec o = l
    ∧ phase (status o) = "Provisioning" ∧ ready (status o) = false
    ∧ generation (metadata o) = 1
    ∧ reconciliation_history w'
      = (reconciliation_history w
         ++ [ {| Event.timestamp := clock (S (ticks w)); Event.database := n;
                 Event.phase := "Provisioning"; Event.action := "reconciled" |} ])%list.
Proof.
  intros Hnew Hd Hreq.
  exists (length (objects w)), (created clock n l w),
    (provisioned (fresh_resource n l (clock (ticks w)))).
  split_and!; try done.
  - by eapply create_database_ok.
  - simpl. apply od_lookup_set_eq.
  - simpl. by apply od_keys_set_new.
  - simpl. apply list_lookup_insert_eq. rewrite length_app. simpl. lia.
Qed.

(** C2, as the code has it.  [create_database] never looks whether the
    name is taken.  With a valid spec it succeeds on a registered name too:
    the name keeps its place in the registry and is bound to a new object
    (generation 1, phase [Provisioning], not ready), and the object that was
    registered stays as it was but is no longer reachable by that name. *)
Theorem create_database_replaces w n l d old :
  od_lookup n (databases w) = Some old → dicts w !! l = Some d →
  (has_required d →
   ∃ db w' o,
     create_database clock n l w = (Returned db, w')
     ∧ db = length (objects w)
     ∧ od_lookup n (databases w') = Some db
     ∧ od_keys (databases w') = od_keys (databases w)
     ∧ objects w' !! db = Some o
     ∧ o = provisioned (fresh_resource n l (clock (ticks w)))
     ∧ (∀ l0 o0, objects w !! l0 = Some o0 → objects w' !! l0 = Some o0 ∧ l0 ≠ db))
  ∧ (¬ has_required d →
     ∃ f, create_database clock n l w
          = (Raised (ValueError ("Missing required field: " +:+ f)), w)).
Proof.
  intros Hold Hd. split.
  - intros Hreq.
    exists (length (objects w)), (created clock n l w),
      (provisioned (fresh_resource n l (clock (ticks w)))).
    split_and!; try done.
    + by eapply create_database_ok.
    + simpl. apply od_lookup_set_eq.
    + simpl. by eapply od_keys_set_old.
    + simpl. apply list_lookup_insert_eq. rewrite length_app. simpl. lia.
    + intros l0 o0 Ho0. apply lookup_lt_Some in Ho0 as Hlt. split; [| lia].
      simpl. rewrite list_lookup_insert_ne by lia. by apply lookup_app_l_Some.
  - intros Hno.
    destruct (check_fields_missing required_fields w l d Hd Hno) as (f & _ & _ & Hrun).
    exists f. unfold create_database. by erewrite bind_raised.
Qed.

(** ** Reconciliation of an unknown name *)

(** C4, as the code has it.  [reconcile] on a name that is not registered
    returns normally: it raises nothing and tells its caller nothing.  It
    logs one ERROR line and leaves the registry, the objects, the history
    and the clock as they were. *)
Theorem reconcile_unknown_returns w n :
  od_lookup n (databases w) = None →
  ∃ w', reconcile clock n w = (Returned tt, w')
        ∧ databases w' = databases w
        ∧ objects w' = objects w ∧ dicts w' = dicts w
        ∧ reconciliation_history w' = reconciliation_history w
        ∧ ticks w' = ticks w
        ∧ error_log w' = (error_log w ++ ["Database " +:+ n +:+ " not found"])%list.
Proof.
  intros H. eexists. split; [by apply reconcile_unknown |]. done.
Qed.
(** ** Updates *)

Lemma resource_at_Some w n o :
  resource_at w n = Some o ↔
  ∃ db, od_lookup n (databases w) = Some db ∧ objects w !! db = Some o.
Proof.
  unfold resource_at. destruct (od_lookup n (databases w)) as [db|].
  - split; [by eauto | by intros (? & [= <-] & ?)].
  - split; [done | by intros (? & ? & ?)].
Qed.

(** [db.spec.get(key) != value]: the item is not in the current spec as it
    is, unless the key is missing there and the value is [None]. *)
Lemma dict_get_differs (cur : gmap string value) k v :
  dict_get cur k ≠ v ↔ cur !! k ≠ Some v ∧ (cur !! k = None → v ≠ VNone).
Proof.
  unfold dict_get. destruct (cur !! k) as [u|]; simpl.
  - split; [intros H; split; [congruence | done] | intros [H _]; congruence].
  - split; [intros H; split; [done | congruence] | intros [_ H] E; by apply H].
Qed.

(** C5, as the code has it.  On a registered resource, [update_database]
    compares every item of the new spec with what [db.spec.get(key)]
    answers, which is [None] for a key the current spec does not have.  If
    some item differs from that answer, the three writes of the update merge the new spec into the
    resource's dict, add exactly 1 to the generation and set the phase to
    [Updating]; [reconcile] then runs on that state, and the call ends with
    the merged spec, the generation one higher, the phase [Running] and one
    more history entry.  If no item differs, the call changes nothing. *)
Theorem update_database_generation w n l o cur new :
  reachable clock w →
  resource_at w n = Some o → spec_of w o = Some cur → dicts w !! l = Some new →
  ((∃ k v, new !! k = Some v ∧ dict_get cur k ≠ v) →
   ∃ db w_mid w' o_mid o',
     od_lookup n (databases w) = Some db
     ∧ accept_update db l w = (Returned tt, w_mid)
     ∧ resource_at w_mid n = Some o_mid
     ∧ spec_of w_mid o_mid = Some (new ∪ cur)
     ∧ generation (metadata o_mid) = generation (metadata o) + 1
     ∧ phase (status o_mid) = "Updating"
     ∧ reconcile clock n w_mid = (Returned tt, w')
     ∧ update_database clock n l w = (Returned tt, w')
     ∧ resource_at w' n = Some o'
     ∧ spec_of w' o' = Some (new ∪ cur)
     ∧ generation (metadata o') = generation (metadata o) + 1
     ∧ phase (status o') = "Running"
     ∧ length (reconciliation_history w') = S (length (reconciliation_history w)))
  ∧ ((∀ k v, new !! k = Some v → dict_get cur k = v) →
     update_database clock n l w = (Returned tt, w)).
Proof.
  intros Hreach Hres Hcur Hnew.
  apply resource_at_Some in Hres as (db & Hl & Ho). unfold spec_of in Hcur.
  destruct (reachable_well_formed clock w Hreach n db Hl)
    as (o0 & d0 & Ho0 & Hname & Hd0 & Hreq & Hst).
  simplify_eq.
  pose proof (has_required_union new cur Hreq) as Hreq'.
  apply has_required_lookup in Hreq' as Hk. destruct Hk as (_ & [v Hv] & _).
  assert (dicts (update_accepted db o (new ∪ cur) w) !! spec o = Some (new ∪ cur)) as Hmid.
  { simpl. apply list_lookup_insert_eq. by eapply lookup_lt_Some. }
  assert (objects (update_accepted db o (new ∪ cur) w) !! db = Some (accepted o)) as Hobj.
  { simpl. apply list_lookup_insert_eq. by eapply lookup_lt_Some. }
  split.
  - intros Hch. apply changes_cons in Hch.
    exists db, (update_accepted db o (new ∪ cur) w),
      (update_applied clock (name o) db o (new ∪ cur) w),
      (accepted o), (updated (accepted o)).
    split_and!.
    + done.
    + by apply accept_update_ok.
    + apply resource_at_Some. by exists db.
    + done.
    + done.
    + done.
    + erewrite reconcile_updating with (o := accepted o) by done.
      unfold update_applied, update_accepted. by rewrite put_obj_put_obj.
    + by eapply update_database_changed.
    + apply resource_at_Some. exists db. split; [done |].
      simpl. apply list_lookup_insert_eq. by eapply lookup_lt_Some.
    + unfold spec_of. simpl. apply list_lookup_insert_eq. by eapply lookup_lt_Some.
    + done.
    + done.
    + simpl. rewrite length_app. simpl. lia.
  - intros Hsame. apply changes_nil in Hsame. by eapply update_database_same.
Qed.

(** The writes of an accepted update leave [ready] as it was: a resource
    that was ready enters [reconcile] ready and in phase [Updating]. *)
Lemma accept_update_keeps_ready w n l db o cur new :
  od_lookup n (databases w) = Some db → objects w !! db = Some o →
  dicts w !! spec o = Some cur → dicts w !! l = Some new →
  ∃ w_mid o_mid,
    accept_update db l w = (Returned tt, w_mid)
    ∧ resource_at w_mid n = Some o_mid
    ∧ phase (status o_mid) = "Updating"
    ∧ ready (status o_mid) = ready (status o).
Proof.
  intros Hl Ho Hcur Hnew.
  exists (update_accepted db o (new ∪ cur) w), (accepted o). split_and!.
  - by apply accept_update_ok.
  - apply resource_at_Some. exists db. split; [done |].
    simpl. apply list_lookup_insert_eq. by eapply lookup_lt_Some.
  - done.
  - done.
Qed.

(** ** Deletion *)

Lemma status_of_each_ok w ns :
  well_formed w → (∀ n, n ∈ ns → is_Some (od_lookup n (databases w))) →
  ∃ views, status_of_each ns w = (Returned views, w)
           ∧ status_name <$> views = Some <$> ns.
Proof.
  intros Hwf. induction ns as [|n ns IH]; intros Hin.
  - by exists [].
  - destruct (Hin n) as [db Hl]; [by left |].
    destruct (Hwf _ _ Hl) as (o & d & Ho & Hname & Hd & Hreq & Hst).
    apply has_required_lookup in Hreq as ([e He] & [v Hv] & _).
    destruct IH as (views & Hrun & Hnames).
    { intros n' Hn'. apply Hin. by right. }
    exists (status_view n e v o :: views). split.
    + simpl. run_step get_database_status_ok. run_step Hrun. reflexivity.
    + csimpl. by rewrite Hnames.
Qed.

Lemma list_databases_ok w :
  well_formed w →
  ∃ views, list_databases w = (Returned views, w)
           ∧ status_name <$> views = Some <$> od_keys (databases w).
Proof.
  intros Hwf. unfold list_databases. run_step @gets_ok.
  apply status_of_each_ok; [done |]. intros n. apply od_keys_lookup.
Qed.

(** C7.  After [delete_database] has returned for a registered name, the
    name is no longer a key of the registry, [list_databases] answers the
    views of the names that remain, none of them of that name, and
    [get_database_status] answers the error dict for it. *)
Theorem delete_database_removes w n o :
  reachable clock w → resource_at w n = Some o →
  ∃ w' views,
    delete_database clock n w = (Returned tt, w')
    ∧ od_lookup n (databases w') = None
    ∧ od_keys (databases w') = filter (fun k => k ≠ n) (od_keys (databases w))
    ∧ list_databases w' = (Returned views, w')
    ∧ status_name <$> views = Some <$> od_keys (databases w')
    ∧ Forall (fun s => status_name s ≠ Some n) views
    ∧ get_database_status n w' = (Returned (StatusError "Database not found"), w').
Proof.
  intros Hreach Hres. pose proof (reachable_well_formed clock w Hreach) as Hwf.
  apply resource_at_Some in Hres as (db & Hl & Ho).
  destruct (Hwf n db Hl) as (o0 & d0 & Ho0 & Hname & Hd0 & Hreq & Hst). simplify_eq.
  assert (delete_database clock (name o) w = (Returned tt, deleted clock (name o) db o w))
    as Hdel by by apply delete_database_ok.
  assert (well_formed (deleted clock (name o) db o w)) as Hwf'.
  { pose proof (well_formed_delete_database clock w (name o) Hwf) as H.
    by rewrite Hdel in H. }
  assert (od_lookup (name o) (databases (deleted clock (name o) db o w)) = None) as Hgone.
  { simpl. apply od_lookup_del_eq. }
  destruct (list_databases_ok _ Hwf') as (views & Hlist & Hnames).
  exists (deleted clock (name o) db o w), views. split_and!; try done.
  - simpl. apply od_keys_del.
  - apply Forall_forall. intros s Hs Heq.
    assert (Some (name o) ∈ status_name <$> views) as Hin.
    { rewrite <- Heq. by apply list_elem_of_fmap_2. }
    rewrite Hnames in Hin. apply list_elem_of_fmap in Hin as (k & [= <-] & Hk).
    by apply od_lookup_None_keys in Hgone.
  - by apply get_database_status_unknown.
Qed.
(** ** Backups *)







(** ** The two invariants *)

(** C1, as the code has it.  In every state the program is in between two
    calls, a registered resource is in phase [Provisioning] or [Running],
    and it is ready only if it is running.  (Nothing ever clears the flag:
    inside [update_database] and [delete_database] a resource that was ready
    stays ready while its phase is [Updating] or [Deleting].) *)
Theorem reachable_ready_only_when_running w n o :
  reachable clock w → resource_at w n = Some o →
  (phase (status o) = "Provisioning" ∨ phase (status o) = "Running")
  ∧ (ready (status o) = true → phase (status o) = "Running").
Proof.
  intros Hreach Hres. apply resource_at_Some in Hres as (db & Hl & Ho).
  destruct (reachable_well_formed clock w Hreach n db Hl)
    as (o0 & d0 & Ho0 & Hname & Hd0 & Hreq & Hst).
  by simplify_eq.
Qed.

(** C10.  In every state the program is in between two calls, the spec of a
    registered resource has the fields [engine], [version] and [storage],
    so [get_database_status] raises no [KeyError]: it returns the view of
    the resource. *)
Theorem reachable_spec_has_required w n o :
  reachable clock w → resource_at w n = Some o →
  ∃ d e v s,
    spec_of w o = Some d
    ∧ d !! "engine" = Some e ∧ d !! "version" = Some v ∧ d !! "storage" = Some s
    ∧ get_database_status n w = (Returned (status_view n e v o), w).
Proof.
  intros Hreach Hres. apply resource_at_Some in Hres as (db & Hl & Ho).
  destruct (reachable_well_formed clock w Hreach n db Hl)
    as (o0 & d & Ho0 & Hname & Hd & Hreq & Hst).
  simplify_eq.
  apply has_required_lookup in Hreq as ([e He] & [v Hv] & [s Hs]).
  exists d, e, v, s. split_and!; try done. by eapply get_database_status_ok.
Qed.

(** ** The scenario *)

(** C6, as the code has it.  From the empty registry all three calls
    return; once [create_database] has returned for [prod-db] the phase is
    already [Provisioning]; after one [reconcile] the phase is [Running],
    the resource is ready and its connection string is
    [postgresql://localhost:5432/prod-db]; a second [reconcile] keeps all
    three and adds the health data. *)
Theorem scenario_phases :
  (create_database clock "prod-db" 0%nat (run clock (NewDict prod_spec) init)).1
  = Returned 0%nat
  ∧ (reconcile clock "prod-db" (scenario_created clock)).1 = Returned tt
  ∧ (reconcile clock "prod-db" (scenario_reconciled clock)).1 = Returned tt
  ∧ (∃ o, resource_at (scenario_created clock) "prod-db" = Some o
        ∧ phase (status o) = "Provisioning" ∧ ready (status o) = false
        ∧ generation (metadata o) = 1)
  ∧ (∃ o, resource_at (scenario_reconciled clock) "prod-db" = Some o
          ∧ phase (status o) = "Running" ∧ ready (status o) = true
          ∧ connection_string (status o) = Some "postgresql://localhost:5432/prod-db")
  ∧ (∃ o, resource_at (scenario_reconciled_twice clock) "prod-db" = Some o
          ∧ phase (status o) = "Running" ∧ ready (status o) = true
          ∧ connection_string (status o) = Some "postgresql://localhost:5432/prod-db"
          ∧ is_Some (health (status o))).
Proof.
  split_and!; [vm_compute; reflexivity .. | | | ];
    eexists; (split; [vm_compute; reflexivity |]);
    vm_compute; split_and!; by eauto.
Qed.
End claims.

(** * The claims on the scenario *)

Lemma prod_spec_has_required : has_required prod_spec.
Proof. apply has_required_lookup. vm_compute. split_and!; eauto. Qed.

Lemma scenario_update_requested_reachable :
  reachable fixed_clock scenario_update_requested.
Proof.
  unfold scenario_update_requested, scenario_reconciled, scenario_created.
  do 2 apply reachable_run. apply reachable_run_all, reachable_init.
Qed.

(** C1 as stated fails: when [update_database] accepts [{'version': '15.0'}]
    for the running, ready [prod-db], it calls [reconcile] in a state where
    the resource is in phase [Updating] and still ready. *)
Lemma update_database_ready_while_updating :
  reachable fixed_clock scenario_update_requested
  ∧ update_database fixed_clock "prod-db" 1%nat scenario_update_requested
    = reconcile fixed_clock "prod-db" scenario_updating
  ∧ (∃ o, resource_at scenario_updating "prod-db" = Some o
          ∧ ready (status o) = true ∧ phase (status o) = "Updating")
  ∧ ¬ ready_only_when_running scenario_updating.
Proof.
  split_and!.
  - apply scenario_update_requested_reachable.
  - vm_compute. reflexivity.
  - eexists. split; [vm_compute; reflexivity |]. by vm_compute.
  - intros H.
    assert (∃ o, resource_at scenario_updating "prod-db" = Some o
                 ∧ ready (status o) = true ∧ phase (status o) = "Updating")
      as (o & Ho & Hr & Hp).
    { eexists. split; [vm_compute; reflexivity |]. by vm_compute. }
    specialize (H "prod-db" o Ho Hr). congruence.
Qed.

Lemma reachable_ready_only_when_running_witness :
  ∃ o, resource_at (scenario_reconciled fixed_clock) "prod-db" = Some o
       ∧ (phase (status o) = "Provisioning" ∨ phase (status o) = "Running")
       ∧ (ready (status o) = true → phase (status o) = "Running").
Proof.
  eexists. split; [vm_compute; reflexivity |].
  apply (reachable_ready_only_when_running fixed_clock
           (scenario_reconciled fixed_clock) "prod-db").
  - unfold scenario_reconciled, scenario_created.
    apply reachable_run, reachable_run_all, reachable_init.
  - vm_compute. reflexivity.
Defined.

(** C2 as stated fails: [prod-db] is registered, running and ready; a second
    [create_database] for it returns a new object instead of failing, and
    the resource under the name is no longer the one that was there. *)
Lemma create_database_twice_returns :
  is_Some (resource_at (scenario_reconciled fixed_clock) "prod-db")
  ∧ (create_database fixed_clock "prod-db" 0%nat (scenario_reconciled fixed_clock)).1
    = Returned 1%nat
  ∧ resource_at
      (create_database fixed_clock "prod-db" 0%nat (scenario_reconciled fixed_clock)).2
      "prod-db"
    ≠ resource_at (scenario_reconciled fixed_clock) "prod-db".
Proof.
  split_and!.
  - vm_compute. eauto.
  - vm_compute. reflexivity.
  - vm_compute. discriminate.
Qed.

Lemma create_database_replaces_witness :
  ∃ db w' o,
    create_database fixed_clock "prod-db" 0%nat (scenario_reconciled fixed_clock)
    = (Returned db, w')
    ∧ db = 1%nat
    ∧ od_lookup "prod-db" (databases w') = Some db
    ∧ objects w' !! db = Some o
    ∧ phase (status o) = "Provisioning" ∧ generation (metadata o) = 1.
Proof.
  assert (od_lookup "prod-db" (databases (scenario_reconciled fixed_clock)) = Some 0%nat)
    as Hold by (vm_compute; reflexivity).
  assert (dicts (scenario_reconciled fixed_clock) !! 0%nat = Some prod_spec)
    as Hd by (vm_compute; reflexivity).
  assert (has_required prod_spec) as Hreq by apply prod_spec_has_required.
  destruct (create_database_replaces fixed_clock (scenario_reconciled fixed_clock)
              "prod-db" 0%nat prod_spec 0%nat Hold Hd) as [Hvalid _].
  destruct (Hvalid Hreq) as (db & w' & o & Hrun & Hdb & Hl & _ & Ho & Heq & _).
  exists db, w', o. subst o. split_and!; done.
Defined.

(** C3 as stated fails: the resource [create_database] returns for
    [prod-db] is in phase [Provisioning], not [Pending]. *)
Lemma create_database_returns_not_pending :
  od_lookup "prod-db" (databases (new_dict prod_spec init).2) = None
  ∧ ∃ w' o,
      create_database fixed_clock "prod-db" 0%nat (new_dict prod_spec init).2
      = (Returned 0%nat, w')
      ∧ objects w' !! 0%nat = Some o
      ∧ phase (status o) = "Provisioning" ∧ phase (status o) ≠ "Pending".
Proof.
  split; [reflexivity |]. eexists _, _. split_and!.
  - vm_compute. reflexivity.
  - vm_compute. reflexivity.
  - reflexivity.
  - discriminate.
Qed.

Lemma create_database_returns_provisioning_witness :
  ∃ db w' o,
    create_database fixed_clock "prod-db" 0%nat (new_dict prod_spec init).2
    = (Returned db, w')
    ∧ objects w' !! db = Some o
    ∧ phase (status o) = "Provisioning" ∧ generation (metadata o) = 1.
Proof.
  assert (has_required prod_spec) as Hreq by apply prod_spec_has_required.
  destruct (create_database_returns_provisioning fixed_clock
              (new_dict prod_spec init).2 "prod-db" 0%nat prod_spec
              eq_refl eq_refl Hreq)
    as (db & w' & o & Hrun & _ & _ & Ho & _ & _ & Hp & _ & Hg & _).
  exists db, w', o. split_and!; done.
Defined.

(** C4 as stated fails in its first part: [reconcile] on the unknown name
    [ghost] returns normally; it does not raise. *)
Lemma reconcile_unknown_does_not_raise :
  od_lookup "ghost" (databases init) = None
  ∧ (reconcile fixed_clock "ghost" init).1 = Returned tt
  ∧ ∀ e, (reconcile fixed_clock "ghost" init).1 ≠ Raised e.
Proof. split_and!; [reflexivity | reflexivity | discriminate]. Qed.

Lemma reconcile_unknown_returns_witness :
  ∃ w', reconcile fixed_clock "ghost" init = (Returned tt, w')
        ∧ databases w' = [] ∧ reconciliation_history w' = []
        ∧ error_log w' = ["Database ghost not found"].
Proof.
  destruct (reconcile_unknown_returns fixed_clock init "ghost" eq_refl)
    as (w' & Hrun & Hdb & _ & _ & Hh & _ & He).
  exists w'. split_and!; done.
Defined.

Lemma update_database_generation_witness :
  (∃ w' o',
     update_database fixed_clock "prod-db" 1%nat scenario_update_requested
     = (Returned tt, w')
     ∧ resource_at w' "prod-db" = Some o'
     ∧ spec_of w' o' = Some ({[ "version" := VStr "15.0" ]} ∪ prod_spec)
     ∧ generation (metadata o') = 2 ∧ phase (status o') = "Running")
  ∧ update_database fixed_clock "prod-db" 0%nat scenario_update_requested
    = (Returned tt, scenario_update_requested).
Proof.
  assert (∃ o, resource_at scenario_update_requested "prod-db" = Some o
               ∧ spec_of scenario_update_requested o = Some prod_spec
               ∧ generation (metadata o) = 1) as (o & Ho & Hspec & Hgen).
  { eexists. split_and!; vm_compute; reflexivity. }
  split.
  - destruct (update_database_generation fixed_clock scenario_update_requested
                "prod-db" 1%nat o prod_spec {[ "version" := VStr "15.0" ]}
                scenario_update_requested_reachable Ho Hspec) as [Hchanged _].
    { vm_compute. reflexivity. }
    destruct Hchanged
      as (db & w_mid & w' & o_mid & o' & _ & _ & _ & _ & _ & _ & _ & Hrun & Ho'
          & Hspec' & Hgen' & Hphase & _).
    { exists "version", (VStr "15.0"). split; [vm_compute; reflexivity |].
      vm_compute. discriminate. }
    exists w', o'. rewrite Hgen in Hgen'.
    exact (conj Hrun (conj Ho' (conj Hspec' (conj Hgen' Hphase)))).
  - destruct (update_database_generation fixed_clock scenario_update_requested
                "prod-db" 0%nat o prod_spec prod_spec
                scenario_update_requested_reachable Ho Hspec) as [_ Hsame].
    { vm_compute. reflexivity. }
    apply Hsame. intros k v Hk. unfold dict_get. rewrite Hk. reflexivity.
Defined.

Lemma scenario_notes_update_requested_reachable :
  reachable fixed_clock scenario_notes_update_requested.
Proof.
  unfold scenario_notes_update_requested, scenario_reconciled, scenario_created.
  do 2 apply reachable_run. apply reachable_run_all, reachable_init.
Qed.

(** C5 as stated fails when the new spec brings a key the current spec does
    not have, with the value [None]: the key [notes] of [{'notes': None}]
    differs from the spec of [prod-db], which has no such key, and yet the
    call changes nothing.  The generation stays 1 and the spec stays without
    [notes], where the merged spec would have it. *)
Lemma update_database_none_for_new_key :
  reachable fixed_clock scenario_notes_update_requested
  ∧ dicts scenario_notes_update_requested !! 1%nat = Some {[ "notes" := VNone ]}
  ∧ ∃ o, resource_at scenario_notes_update_requested "prod-db" = Some o
         ∧ spec_of scenario_notes_update_requested o = Some prod_spec
         ∧ ({[ "notes" := VNone ]} : gmap string value) !! "notes" ≠ prod_spec !! "notes"
         ∧ update_database fixed_clock "prod-db" 1%nat scenario_notes_update_requested
           = (Returned tt, scenario_notes_update_requested)
         ∧ generation (metadata o) = 1
         ∧ prod_spec !! "notes" = None
         ∧ ({[ "notes" := VNone ]} ∪ prod_spec : gmap string value) !! "notes" = Some VNone
         ∧ ¬ (∃ w' o',
                update_database fixed_clock "prod-db" 1%nat scenario_notes_update_requested
                = (Returned tt, w')
                ∧ resource_at w' "prod-db" = Some o'
                ∧ generation (metadata o') = generation (metadata o) + 1).
Proof.
  assert (∃ o, resource_at scenario_notes_update_requested "prod-db" = Some o
               ∧ spec_of scenario_notes_update_requested o = Some prod_spec
               ∧ generation (metadata o) = 1) as (o & Ho & Hspec & Hgen).
  { eexists. split_and!; vm_compute; reflexivity. }
  assert (update_database fixed_clock "prod-db" 1%nat scenario_notes_update_requested
          = (Returned tt, scenario_notes_update_requested)) as Hrun
    by (vm_compute; reflexivity).
  split; [apply scenario_notes_update_requested_reachable |].
  split; [vm_compute; reflexivity |].
  exists o.
  refine (conj Ho (conj Hspec (conj _ (conj Hrun (conj Hgen (conj _ (conj _ _))))))).
  - vm_compute. discriminate.
  - vm_compute. reflexivity.
  - vm_compute. reflexivity.
  - intros (w' & o' & Hrun' & Ho' & Hgen'). rewrite Hrun in Hrun'.
    injection Hrun' as <-. rewrite Ho in Ho'. injection Ho' as <-. lia.
Qed.

(** C6 as stated fails in its first two steps: after [create_database] the
    phase is not [Pending], and after one [reconcile] it is not
    [Provisioning]. *)
Lemma scenario_created_not_pending :
  ∃ o o',
    resource_at (scenario_created fixed_clock) "prod-db" = Some o
    ∧ phase (status o) ≠ "Pending"
    ∧ resource_at (scenario_reconciled fixed_clock) "prod-db" = Some o'
    ∧ phase (status o') ≠ "Provisioning".
Proof.
  eexists _, _. split_and!.
  - vm_compute. reflexivity.
  - vm_compute. discriminate.
  - vm_compute. reflexivity.
  - vm_compute. discriminate.
Qed.

Lemma delete_database_removes_witness :
  ∃ w' views,
    delete_database fixed_clock "prod-db" (scenario_reconciled fixed_clock)
    = (Returned tt, w')
    ∧ od_lookup "prod-db" (databases w') = None
    ∧ list_databases w' = (Returned views, w')
    ∧ Forall (fun s => status_name s ≠ Some "prod-db") views
    ∧ get_database_status "prod-db" w'
      = (Returned (StatusError "Database not found"), w').
Proof.
  assert (∃ o, resource_at (scenario_reconciled fixed_clock) "prod-db" = Some o)
    as (o & Ho).
  { eexists. vm_compute. reflexivity. }
  assert (reachable fixed_clock (scenario_reconciled fixed_clock)) as Hreach.
  { unfold scenario_reconciled, scenario_created.
    apply reachable_run, reachable_run_all, reachable_init. }
  destruct (delete_database_removes fixed_clock (scenario_reconciled fixed_clock)
              "prod-db" o Hreach Ho)
    as (w' & views & Hrun & Hgone & _ & Hlist & _ & Hall & Hget).
  exists w', views. exact (conj Hrun (conj Hgone (conj Hlist (conj Hall Hget)))).
Defined.

Lemma create_database_missing_field_witness :
  ∃ f, f ∈ required_fields
       ∧ create_database fixed_clock "prod-db" 0%nat
           (new_dict {[ "engine" := VStr "postgresql" ]} init).2
         = (Raised (ValueError ("Missing required field: " +:+ f)),
            (new_dict {[ "engine" := VStr "postgresql" ]} init).2).
Proof.
  destruct (create_database_missing_field fixed_clock
              (new_dict {[ "engine" := VStr "postgresql" ]} init).2 "prod-db" 0%nat
              {[ "engine" := VStr "postgresql" ]} "version")
    as (f & Hin & _ & Hrun).
  - vm_compute. reflexivity.
  - apply elem_of_required_fields. right. left. reflexivity.
  - vm_compute. reflexivity.
  - exists f. exact (conj Hin Hrun).
Defined.



Lemma reachable_spec_has_required_witness :
  ∃ o, resource_at (scenario_created fixed_clock) "prod-db" = Some o
       ∧ ∃ d e v s,
           spec_of (scenario_created fixed_clock) o = Some d
           ∧ d !! "engine" = Some e ∧ d !! "version" = Some v
           ∧ d !! "storage" = Some s
           ∧ get_database_status "prod-db" (scenario_created fixed_clock)
             = (Returned (status_view "prod-db" e v o), scenario_created fixed_clock).
Proof.
  eexists. split; [vm_compute; reflexivity |].
  apply (reachable_spec_has_required fixed_clock (scenario_created fixed_clock) "prod-db").
  - unfold scenario_created. apply reachable_run_all, reachable_init.
  - vm_compute. reflexivity.
Defined.

(** * More of the operator *)

(** ** Nothing is undone *)

Lemma obj_evolves_refl o : obj_evolves o o.
Proof. unfold obj_evolves. split_and!; (done || lia). Qed.

Lemma obj_evolves_trans o1 o2 o3 :
  obj_evolves o1 o2 → obj_evolves o2 o3 → obj_evolves o1 o3.
Proof.
  intros (Hn & Hs & Hc & Hg & Hr & Hcs & Hh) (Hn' & Hs' & Hc' & Hg' & Hr' & Hcs' & Hh').
  unfold obj_evolves. split_and!; try congruence; try lia; auto.
Qed.

Lemma extends_refl w : extends w w.
Proof.
  unfold extends. split_and!; try done.
  - intros l o Ho. exists o. split; [done | apply obj_evolves_refl].
  - intros l d Hd. by exists d.
Qed.

Lemma extends_trans w1 w2 w3 : extends w1 w2 → extends w2 w3 → extends w1 w3.
Proof.
  intros (Hh & He & Ht & Ho & Hd) (Hh' & He' & Ht' & Ho' & Hd').
  unfold extends. split_and!.
  - by etrans.
  - by etrans.
  - lia.
  - intros l o Hl. destruct (Ho _ _ Hl) as (o2 & Hl2 & Hev).
    destruct (Ho' _ _ Hl2) as (o3 & Hl3 & Hev'). exists o3. split; [done |].
    by eapply obj_evolves_trans.
  - intros l d Hl. destruct (Hd _ _ Hl) as (d2 & Hl2 & Hsub).
    destruct (Hd' _ _ Hl2) as (d3 & Hl3 & Hsub'). exists d3. split; [done |].
    by etrans.
Qed.

(** A state that differs in the registry only. *)
Lemma extends_same w w' :
  reconciliation_history w' = reconciliation_history w → error_log w' = error_log w →
  ticks w' = ticks w → objects w' = objects w → dicts w' = dicts w →
  extends w w'.
Proof.
  intros Hh He Ht Ho Hd. unfold extends. rewrite Hh, He, Ht, Ho, Hd.
  apply extends_refl.
Qed.

Lemma extends_put_obj w l o o' :
  objects w !! l = Some o → obj_evolves o o' → extends w (put_obj l o' w).
Proof.
  intros Hl Hev. unfold extends. split_and!; try done.
  - intros l0 o0 Hl0. destruct (decide (l = l0)) as [<-|Hne].
    + exists o'. split; [by eapply objects_put_obj_eq |]. by simplify_eq.
    + exists o0. split; [by rewrite objects_put_obj_ne | apply obj_evolves_refl].
  - intros l0 d Hd. by exists d.
Qed.

Lemma extends_put_dict w l (d d' : gmap string value) :
  dicts w !! l = Some d → dom d ⊆ dom d' → extends w (put_dict l d' w).
Proof.
  intros Hl Hsub. unfold extends. split_and!; try done.
  - intros l0 o Ho. exists o. split; [done | apply obj_evolves_refl].
  - intros l0 d0 Hl0. destruct (decide (l = l0)) as [<-|Hne].
    + exists d'. split; [by eapply dicts_put_dict_eq |]. by simplify_eq.
    + exists d0. split; [by rewrite dicts_put_dict_ne | done].
Qed.

Lemma respects_ret {A} (a : A) : respects (ret a).
Proof. intros w. apply extends_refl. Qed.

Lemma respects_raise {A} e : respects (@raise A e).
Proof. intros w. apply extends_refl. Qed.

Lemma respects_gets {A} (f : World → A) : respects (gets f).
Proof. intros w. apply extends_refl. Qed.

Lemma respects_bind {A B} (m : M A) (k : A → M B) :
  respects m → (∀ a, respects (k a)) → respects (bind m k).
Proof.
  intros Hm Hk w. unfold bind. specialize (Hm w).
  destruct (m w) as [[a|e] w1]; simpl in *; [| done].
  eapply extends_trans; [done | apply Hk].
Qed.

Lemma respects_modify f : (∀ w, extends w (f w)) → respects (modify f).
Proof. intros Hf w. apply Hf. Qed.

Lemma respects_now clock : respects (now clock).
Proof.
  intros w. simpl. unfold extends. simpl. split_and!; try done; try lia.
  - intros l o Ho. exists o. split; [done | apply obj_evolves_refl].
  - intros l d Hd. by exists d.
Qed.

Lemma respects_logger_error msg : respects (logger_error msg).
Proof.
  intros w. simpl. unfold extends. simpl. split_and!; try done.
  - by apply prefix_app_r.
  - intros l o Ho. exists o. split; [done | apply obj_evolves_refl].
  - intros l d Hd. by exists d.
Qed.

Lemma respects_read_obj l : respects (read_obj l).
Proof. intros w. unfold read_obj. destruct (objects w !! l); apply extends_refl. Qed.

Lemma respects_read_dict l : respects (read_dict l).
Proof. intros w. unfold read_dict. destruct (dicts w !! l); apply extends_refl. Qed.

Lemma respects_subscript l k : respects (subscript l k).
Proof.
  apply respects_bind; [apply respects_read_dict |].
  intros d. destruct (d !! k); [apply respects_ret | apply respects_raise].
Qed.

(** After a read, the continuation may rely on what was read. *)
Lemma respects_bind_read_obj {B} l (k : DatabaseResource → M B) :
  (∀ w o, objects w !! l = Some o → extends w (k o w).2) →
  respects (bind (read_obj l) k).
Proof.
  intros Hk w. unfold bind, read_obj.
  destruct (objects w !! l) as [o|] eqn:Ho; [by apply Hk | apply extends_refl].
Qed.

Lemma respects_bind_read_dict {B} l (k : gmap string value → M B) :
  (∀ w d, dicts w !! l = Some d → extends w (k d w).2) →
  respects (bind (read_dict l) k).
Proof.
  intros Hk w. unfold bind, read_dict.
  destruct (dicts w !! l) as [d|] eqn:Hd; [by apply Hk | apply extends_refl].
Qed.

Lemma respects_set_status db f : keeps_flags f → respects (set_status db f).
Proof.
  intros Hf. apply respects_bind_read_obj. intros w o Ho.
  erewrite write_obj_ok by done. simpl. apply (extends_put_obj w db o); [done |].
  destruct (Hf (status o)) as (Hr & Hc & Hh).
  unfold obj_evolves. simpl. split_and!; (done || lia).
Qed.

Lemma respects_set_generation db :
  respects (set_metadata db (fun m => with_generation (generation m + 1) m)).
Proof.
  apply respects_bind_read_obj. intros w o Ho.
  erewrite write_obj_ok by done. simpl. apply (extends_put_obj w db o); [done |].
  unfold obj_evolves. simpl. split_and!; (done || lia).
Qed.

Lemma keeps_flags_with_phase p : keeps_flags (with_phase p).
Proof. intros s. by split_and!. Qed.

Lemma keeps_flags_with_message m : keeps_flags (with_message m).
Proof. intros s. by split_and!. Qed.

Lemma keeps_flags_with_ready_true : keeps_flags (with_ready true).
Proof. intros s. by split_and!. Qed.

Lemma keeps_flags_with_connection_string c : keeps_flags (with_connection_string c).
Proof. intros s. split_and!; simpl; eauto. Qed.

Lemma keeps_flags_with_health h : keeps_flags (with_health h).
Proof. intros s. split_and!; simpl; eauto. Qed.

Lemma extends_append_obj w o : extends w (set_objects (fun h => (h ++ [o])%list) w).
Proof.
  unfold extends. simpl. split_and!; try done.
  - intros l o0 Ho. exists o0. split; [by apply lookup_app_l_Some | apply obj_evolves_refl].
  - intros l d Hd. by exists d.
Qed.

Lemma extends_append_dict w d : extends w (set_dicts (fun h => (h ++ [d])%list) w).
Proof.
  unfold extends. simpl. split_and!; try done.
  - intros l o Ho. exists o. split; [done | apply obj_evolves_refl].
  - intros l d0 Hd. exists d0. split; [by apply lookup_app_l_Some | done].
Qed.

Lemma extends_append_event w e :
  extends w (set_history (fun h => (h ++ [e])%list) w).
Proof.
  unfold extends. simpl. split_and!; try done.
  - by apply prefix_app_r.
  - intros l o Ho. exists o. split; [done | apply obj_evolves_refl].
  - intros l d Hd. by exists d.
Qed.

Lemma extends_set_databases w f : extends w (set_databases f w).
Proof. by apply extends_same. Qed.

Section respects_operator.
Variable clock : nat → datetime.

Lemma respects_provision_database db : respects (_provision_database db).
Proof.
  unfold _provision_database.
  apply respects_bind; [apply respects_read_obj | intros o].
  apply respects_bind; [apply respects_subscript | intros _].
  apply respects_bind; [apply respects_subscript | intros _].
  apply respects_bind; [apply respects_set_status, keeps_flags_with_phase | intros _].
  apply respects_set_status, keeps_flags_with_message.
Qed.

Lemma respects_check_provisioning_status db : respects (_check_provisioning_status db).
Proof.
  unfold _check_provisioning_status.
  apply respects_bind; [apply respects_set_status, keeps_flags_with_phase | intros _].
  apply respects_bind; [apply respects_set_status, keeps_flags_with_ready_true | intros _].
  apply respects_bind; [apply respects_set_status, keeps_flags_with_message | intros _].
  apply respects_bind; [apply respects_read_obj | intros o].
  apply respects_bind; [apply respects_subscript | intros e].
  apply respects_set_status, keeps_flags_with_connection_string.
Qed.

Lemma respects_monitor_health db : respects (_monitor_health db).
Proof. apply respects_set_status, keeps_flags_with_health. Qed.

Lemma respects_apply_update db : respects (_apply_update db).
Proof.
  unfold _apply_update.
  apply respects_bind; [apply respects_read_obj | intros o].
  apply respects_bind; [apply respects_subscript | intros _].
  apply respects_bind; [apply respects_set_status, keeps_flags_with_phase | intros _].
  apply respects_set_status, keeps_flags_with_message.
Qed.

Lemma respects_delete_database_handler db : respects (_delete_database db).
Proof.
  unfold _delete_database, del_database.
  apply respects_bind; [apply respects_read_obj | intros o].
  apply respects_bind; [apply respects_gets | intros dbs].
  destruct (od_lookup (name o) dbs); [| apply respects_raise].
  apply respects_modify. intros w. apply extends_set_databases.
Qed.

Lemma respects_reconcile n : respects (reconcile clock n).
Proof.
  unfold reconcile.
  apply respects_bind; [apply respects_gets | intros dbs].
  destruct (od_lookup n dbs) as [db|]; [| apply respects_logger_error].
  apply respects_bind; [apply respects_read_obj | intros o].
  apply respects_bind.
  - repeat case_decide;
      first [ apply respects_provision_database
            | apply respects_check_provisioning_status
            | apply respects_monitor_health
            | apply respects_apply_update
            | apply respects_delete_database_handler
            | apply respects_ret ].
  - intros _. apply respects_bind; [apply respects_now | intros t].
    apply respects_bind; [apply respects_read_obj | intros o'].
    apply respects_modify. intros w. apply extends_append_event.
Qed.

Lemma respects_check_fields fields l : respects (check_fields fields l).
Proof.
  induction fields as [|f fs IH]; simpl; [apply respects_ret |].
  apply respects_bind; [apply respects_read_dict | intros d].
  destruct (d !! f); [apply IH | apply respects_raise].
Qed.

Lemma respects_create_database n l : respects (create_database clock n l).
Proof.
  unfold create_database, DatabaseResource_init.
  apply respects_bind; [apply respects_check_fields | intros _].
  apply respects_bind.
  - apply respects_bind; [apply respects_now | intros t].
    intros w. apply extends_append_obj.
  - intros db. apply respects_bind.
    + apply respects_modify. intros w. apply extends_set_databases.
    + intros _. apply respects_bind; [apply respects_reconcile | intros _].
      apply respects_ret.
Qed.

Lemma respects_accept_update db l : respects (accept_update db l).
Proof.
  unfold accept_update.
  apply respects_bind; [apply respects_read_obj | intros o].
  apply respects_bind_read_dict. intros w cur Hcur.
  unfold bind at 1. unfold read_dict at 1.
  destruct (dicts w !! l) as [new|]; [| apply extends_refl].
  erewrite bind_returned by (by eapply write_dict_ok).
  eapply extends_trans.
  - apply (extends_put_dict w (spec o) cur (new ∪ cur) Hcur).
    rewrite dom_union. set_solver.
  - apply (respects_bind _ _ (respects_set_generation db)).
    intros _. apply respects_set_status, keeps_flags_with_phase.
Qed.

Lemma respects_update_database n l : respects (update_database clock n l).
Proof.
  unfold update_database.
  apply respects_bind; [apply respects_gets | intros dbs].
  destruct (od_lookup n dbs) as [db|]; [| apply respects_logger_error].
  apply respects_bind; [apply respects_read_dict | intros new].
  apply respects_bind; [apply respects_read_obj | intros o].
  apply respects_bind; [apply respects_read_dict | intros cur].
  destruct (changes cur new); [apply respects_ret |].
  apply respects_bind; [apply respects_accept_update | intros _].
  apply respects_reconcile.
Qed.

Lemma respects_delete_database n : respects (delete_database clock n).
Proof.
  unfold delete_database.
  apply respects_bind; [apply respects_gets | intros dbs].
  destruct (od_lookup n dbs) as [db|]; [| apply respects_logger_error].
  apply respects_bind; [apply respects_set_status, keeps_flags_with_phase | intros _].
  apply respects_reconcile.
Qed.

Lemma respects_scale_database n r : respects (scale_database n r).
Proof.
  unfold scale_database.
  apply respects_bind; [apply respects_gets | intros dbs].
  destruct (od_lookup n dbs) as [db|]; [| apply respects_logger_error].
  apply respects_bind; [apply respects_read_obj | intros o].
  apply respects_bind_read_dict. intros w d Hd.
  erewrite write_dict_ok by done. simpl.
  apply (extends_put_dict w (spec o) d); [done |].
  rewrite dom_insert. set_solver.
Qed.

Lemma respects_backup_database n : respects (backup_database clock n).
Proof.
  unfold backup_database.
  apply respects_bind; [apply respects_gets | intros dbs].
  destruct (od_lookup n dbs) as [db|].
  - apply respects_bind; [apply respects_now | intros t]. apply respects_ret.
  - apply respects_bind; [apply respects_logger_error | intros _]. apply respects_ret.
Qed.

Lemma run_extends c w : extends w (run clock c w).
Proof.
  destruct c; simpl.
  - apply extends_append_dict.
  - apply respects_create_database.
  - apply respects_reconcile.
  - apply respects_update_database.
  - apply respects_delete_database.
  - apply respects_scale_database.
  - apply respects_backup_database.
  - rewrite get_database_status_pure. apply extends_refl.
  - rewrite list_databases_pure. apply extends_refl.
Qed.

Lemma run_all_extends cs w : extends w (run_all clock cs w).
Proof.
  revert w. induction cs as [|c cs IH]; intros w; [apply extends_refl |].
  simpl. eapply extends_trans; [apply run_extends | apply IH].
Qed.
End respects_operator.

Section nothing_undone.
Variable clock : nat → datetime.

(** X1.  The reconciliation history is append-only: whatever calls are
    made, from whatever state, the history before is a prefix of the history
    after; no entry is removed, changed or reordered. *)
Theorem history_append_only cs w :
  reconciliation_history w `prefix_of` reconciliation_history (run_all clock cs w).
Proof. by destruct (run_all_extends clock cs w) as (H & _). Qed.

(** X2.  An object, once built, keeps its name, its spec dict and its
    creation time through every sequence of calls, and its generation never
    goes down. *)
Theorem resource_identity_kept cs w l o :
  objects w !! l = Some o →
  ∃ o', objects (run_all clock cs w) !! l = Some o'
        ∧ name o' = name o ∧ spec o' = spec o
        ∧ created_at (metadata o') = created_at (metadata o)
        ∧ generation (metadata o) ≤ generation (metadata o').
Proof.
  intros Ho. destruct (run_all_extends clock cs w) as (_ & _ & _ & Hobj & _).
  destruct (Hobj l o Ho) as (o' & Ho' & Hn & Hs & Hc & Hg & _).
  exists o'. by split_and!.
Qed.

(** X3.  No call ever clears [ready], or removes [connection_string] or
    [health] from a status: an object that is ready stays ready through
    every sequence of calls, also when its phase becomes [Updating] or
    [Deleting]. *)
Theorem ready_never_cleared cs w l o :
  objects w !! l = Some o →
  ∃ o', objects (run_all clock cs w) !! l = Some o'
        ∧ (ready (status o) = true → ready (status o') = true)
        ∧ (is_Some (connection_string (status o)) →
           is_Some (connection_string (status o')))
        ∧ (is_Some (health (status o)) → is_Some (health (status o'))).
Proof.
  intros Ho. destruct (run_all_extends clock cs w) as (_ & _ & _ & Hobj & _).
  destruct (Hobj l o Ho) as (o' & Ho' & _ & _ & _ & _ & Hr & Hc & Hh).
  exists o'. by split_and!.
Qed.

(** X4.  No call ever removes a key from a spec dict: updates and scaling
    only add keys or overwrite values. *)
Theorem spec_keys_never_removed cs w l (d : gmap string value) k :
  dicts w !! l = Some d → is_Some (d !! k) →
  ∃ d', dicts (run_all clock cs w) !! l = Some d' ∧ is_Some (d' !! k).
Proof.
  intros Hd Hk. destruct (run_all_extends clock cs w) as (_ & _ & _ & _ & Hdict).
  destruct (Hdict l d Hd) as (d' & Hd' & Hsub). exists d'. split; [done |].
  apply elem_of_dom. apply Hsub. by apply elem_of_dom.
Qed.
End nothing_undone.

(** ** One call, as a transition *)

Section transition_facts.
Variable clock : nat → datetime.

Lemma well_formed_registered w n db :
  well_formed w → od_lookup n (databases w) = Some db →
  ∃ o d, registered w n db o d.
Proof.
  intros Hwf Hl. destruct (Hwf n db Hl) as (o & d & Ho & Hn & Hd & Hreq & Hst).
  exists o, d. by split_and!.
Qed.

(** On a well-formed state, [run] takes one of the transitions. *)
Lemma run_step c w : well_formed w → step clock c w (run clock c w).
Proof.
  intros Hwf. destruct c as [d|n l|n|n l|n|n r|n|n|]; simpl.
  - constructor.
  - destruct (dicts w !! l) as [d|] eqn:Hd.
    + destruct (decide (has_required d)) as [Hreq|Hno].
      * erewrite create_database_ok by done. by econstructor.
      * destruct (check_fields_missing required_fields w l d Hd Hno)
          as (f & _ & _ & Hrun).
        unfold create_database. erewrite bind_raised by done. simpl.
        apply step_create_rejected. intros d' Hd'. by simplify_eq.
    + unfold create_database. erewrite bind_raised; cycle 1.
      { simpl. unfold bind, read_dict. by rewrite Hd. }
      simpl. apply step_create_rejected. intros d' Hd'. congruence.
  - destruct (od_lookup n (databases w)) as [db|] eqn:Hl.
    + destruct (well_formed_registered w n db Hwf Hl) as (o & d & Hreg).
      pose proof Hreg as (_ & Ho & Hname & Hd & Hreq & [[Hp|Hp] Hready]).
      * apply has_required_lookup in Hreq as Hk. destruct Hk as ([e He] & _).
        erewrite reconcile_provisioning by done. by econstructor.
      * erewrite reconcile_running by done. by econstructor.
    + rewrite reconcile_unknown by done. by apply step_unknown.
  - destruct (od_lookup n (databases w)) as [db|] eqn:Hl.
    + destruct (well_formed_registered w n db Hwf Hl) as (o & cur & Hreg).
      pose proof Hreg as (_ & Ho & Hname & Hd & Hreq & Hst).
      destruct (dicts w !! l) as [new|] eqn:Hnew.
      * destruct (decide (changes cur new = [])) as [Hsame|Hch].
        -- erewrite update_database_same by done. by econstructor.
        -- pose proof (has_required_union new cur Hreq) as Hreq'.
           apply has_required_lookup in Hreq' as Hk. destruct Hk as (_ & [v Hv] & _).
           erewrite update_database_changed by done. by econstructor.
      * unfold update_database. run_step @gets_ok. rewrite Hl.
        erewrite bind_raised; cycle 1.
        { unfold read_dict. by rewrite Hnew. }
        simpl. by eapply step_update_no_dict.
    + rewrite update_database_unknown by done. by apply step_unknown.
  - destruct (od_lookup n (databases w)) as [db|] eqn:Hl.
    + destruct (well_formed_registered w n db Hwf Hl) as (o & d & Hreg).
      pose proof Hreg as (_ & Ho & Hname & Hd & Hreq & Hst).
      erewrite delete_database_ok by done. by econstructor.
    + rewrite delete_database_unknown by done. by apply step_unknown.
  - destruct (od_lookup n (databases w)) as [db|] eqn:Hl.
    + destruct (well_formed_registered w n db Hwf Hl) as (o & d & Hreg).
      pose proof Hreg as (_ & Ho & Hname & Hd & Hreq & Hst).
      erewrite scale_database_ok by done. by econstructor.
    + rewrite scale_database_unknown by done. by apply step_unknown.
  - destruct (od_lookup n (databases w)) as [db|] eqn:Hl.
    + destruct (well_formed_registered w n db Hwf Hl) as (o & d & Hreg).
      erewrite backup_database_ok by done. by econstructor.
    + rewrite backup_database_unknown by done. by apply step_unknown.
  - rewrite get_database_status_pure. constructor.
  - rewrite list_databases_pure. constructor.
Qed.

Lemma reachable_step c w : reachable clock w → step clock c w (run clock c w).
Proof. intros Hw. apply run_step. by eapply reachable_well_formed. Qed.
End transition_facts.

Section per_call.
Variable clock : nat → datetime.

Lemma resource_at_same w w' n :
  databases w' = databases w → objects w' = objects w →
  resource_at w' n = resource_at w n.
Proof. unfold resource_at. by intros -> ->. Qed.

Lemma lookup_put_obj w db o0 o1 l :
  objects w !! db = Some o0 →
  <[db := o1]> (objects w) !! l = if decide (db = l) then Some o1 else objects w !! l.
Proof.
  intros Ho. case_decide as Hl.
  - subst l. apply list_lookup_insert_eq. by eapply lookup_lt_Some.
  - by apply list_lookup_insert_ne.
Qed.

(** Writing the object of one name leaves the resources of the other names. *)
Lemma resource_at_put_obj_other w n db o d o1 n' :
  well_formed w → registered w n db o d → n ≠ n' →
  resource_at (put_obj db o1 w) n' = resource_at w n'.
Proof.
  intros Hwf (Hl & Ho & Hname & _) Hne. unfold resource_at. simpl.
  destruct (od_lookup n' (databases w)) as [db'|] eqn:Hl'; [| done].
  destruct (Hwf n' db' Hl') as (o' & d' & Ho' & Hname' & _).
  apply list_lookup_insert_ne. intros <-. simplify_eq.
Qed.

(** X5.  A call made for one name leaves the resource of every other name
    as it was: same object, field by field.  (The spec dict of another
    resource can still change, when the two share it.) *)
Theorem other_names_untouched c w n' :
  reachable clock w → call_name c ≠ Some n' →
  resource_at (run clock c w) n' = resource_at w n'.
Proof.
  intros Hreach Hne. pose proof (reachable_well_formed clock w Hreach) as Hwf.
  destruct (reachable_step clock c w Hreach)
    as [w d|w n l d Hd Hreq|w n l Hno|w c n Hc Hn Hl
        |w n db o d e Hreg Hp He|w n db o d Hreg Hp
        |w n l db o d Hreg Hnew|w n l db o cur new Hreg Hnew Hch
        |w n l db o cur new Hreg Hnew Hch
        |w n db o d Hreg|w n r db o d Hreg|w n db o d Hreg|w n|w];
    simpl in Hne; try done.
  - unfold resource_at. simpl. rewrite od_lookup_set_ne by congruence.
    destruct (od_lookup n' (databases w)) as [db'|] eqn:Hl'; [| done].
    destruct (Hwf n' db' Hl') as (o' & d' & Ho' & _).
    apply lookup_lt_Some in Ho' as Hlt.
    rewrite list_lookup_insert_ne by lia. by rewrite lookup_app_l.
  - rewrite <- (resource_at_put_obj_other w n db o d (running e o) n' Hwf Hreg);
      [by apply resource_at_same | congruence].
  - rewrite <- (resource_at_put_obj_other w n db o d (healthy o) n' Hwf Hreg);
      [by apply resource_at_same | congruence].
  - rewrite <- (resource_at_put_obj_other w n db o cur (updated (accepted o)) n' Hwf Hreg);
      [by apply resource_at_same | congruence].
  - unfold resource_at. simpl. rewrite od_lookup_del_ne by congruence.
    apply (resource_at_put_obj_other w n db o d _ n' Hwf Hreg). congruence.
Qed.

(** X6.  Every call appends at most one entry to the history, for the name
    it was made for: [create_database] one with phase [Provisioning],
    [reconcile] and an accepted [update_database] one with phase [Running],
    [delete_database] one with phase [Deleting]; scaling, backups and the
    two readers append nothing.  The phases [Pending] and [Updating] are
    never recorded. *)
Theorem history_per_call c w :
  reachable clock w →
  let h := reconciliation_history w in
  let h' := reconciliation_history (run clock c w) in
  match c with
  | CreateDatabase n _ =>
      h' = h ∨ h' = (h ++ [reconciled (clock (S (ticks w))) n "Provisioning"])%list
  | Reconcile n =>
      match od_lookup n (databases w) with
      | Some _ => h' = (h ++ [reconciled (clock (ticks w)) n "Running"])%list
      | None => h' = h
      end
  | UpdateDatabase n _ =>
      h' = h ∨ h' = (h ++ [reconciled (clock (ticks w)) n "Running"])%list
  | DeleteDatabase n =>
      match od_lookup n (databases w) with
      | Some _ => h' = (h ++ [reconciled (clock (ticks w)) n "Deleting"])%list
      | None => h' = h
      end
  | _ => h' = h
  end.
Proof.
  intros Hreach.
  destruct (reachable_step clock c w Hreach)
    as [w d|w n l d Hd Hreq|w n l Hno|w c n Hc Hn Hl
        |w n db o d e Hreg Hp He|w n db o d Hreg Hp
        |w n l db o d Hreg Hnew|w n l db o cur new Hreg Hnew Hch
        |w n l db o cur new Hreg Hnew Hch
        |w n db o d Hreg|w n r db o d Hreg|w n db o d Hreg|w n|w];
    simpl; try done; try (by left); try (by right).
  - destruct c; simpl in *; simplify_eq; try done; try (by left); by rewrite Hl.
  - destruct Hreg as (-> & _). done.
  - destruct Hreg as (-> & _). done.
  - destruct Hreg as (-> & _). done.
Qed.

(** X7.  The generation of an object changes through [update_database]
    only, and by exactly 1: every other call, and an update that is not
    accepted, leaves it as it is. *)
Theorem generation_steps c w l o :
  reachable clock w → objects w !! l = Some o →
  ∃ o', objects (run clock c w) !! l = Some o'
        ∧ (generation (metadata o') = generation (metadata o)
           ∨ (generation (metadata o') = generation (metadata o) + 1
              ∧ ∃ l', c = UpdateDatabase (name o) l')).
Proof.
  intros Hreach Ho.
  destruct (reachable_step clock c w Hreach)
    as [w d|w n l0 d Hd Hreq|w n l0 Hno|w c n Hc Hn Hl
        |w n db o0 d e Hreg Hp He|w n db o0 d Hreg Hp
        |w n l0 db o0 d Hreg Hnew|w n l0 db o0 cur new Hreg Hnew Hch
        |w n l0 db o0 cur new Hreg Hnew Hch
        |w n db o0 d Hreg|w n r db o0 d Hreg|w n db o0 d Hreg|w n|w];
    simpl; try (exists o; split; [done | by left]).
  - exists o. split; [| by left]. apply lookup_lt_Some in Ho as Hlt.
    rewrite list_lookup_insert_ne by lia. by rewrite lookup_app_l.
  - destruct Hreg as (_ & Ho0 & _).
    rewrite (lookup_put_obj w db o0 _ l Ho0). case_decide; simplify_eq.
    + exists (running e o). split; [done | by left].
    + exists o. split; [done | by left].
  - destruct Hreg as (_ & Ho0 & _).
    rewrite (lookup_put_obj w db o0 _ l Ho0). case_decide; simplify_eq.
    + exists (healthy o). split; [done | by left].
    + exists o. split; [done | by left].
  - destruct Hreg as (_ & Ho0 & Hname & _).
    rewrite (lookup_put_obj w db o0 _ l Ho0). case_decide; simplify_eq.
    + exists (updated (accepted o)). split; [done |]. right. split; [done |]. by eexists.
    + exists o. split; [done | by left].
  - destruct Hreg as (_ & Ho0 & _).
    rewrite (lookup_put_obj w db o0 _ l Ho0). case_decide; simplify_eq.
    + eexists. split; [done | by left].
    + exists o. split; [done | by left].
Qed.
End per_call.

(** ** What a call does to one object *)

Section object_steps.
Variable clock : nat → datetime.

Lemma run_object c w l o :
  reachable clock w → objects w !! l = Some o →
  ∃ o', objects (run clock c w) !! l = Some o' ∧ obj_step c o o'.
Proof.
  intros Hreach Ho.
  destruct (reachable_step clock c w Hreach)
    as [w d|w n l0 d Hd Hreq|w n l0 Hno|w c n Hc Hn Hl
        |w n db o0 d e Hreg Hp He|w n db o0 d Hreg Hp
        |w n l0 db o0 d Hreg Hnew|w n l0 db o0 cur new Hreg Hnew Hch
        |w n l0 db o0 cur new Hreg Hnew Hch
        |w n db o0 d Hreg|w n r db o0 d Hreg|w n db o0 d Hreg|w n|w];
    simpl; try (exists o; split; [done | constructor]).
  - exists o. split; [| constructor]. apply lookup_lt_Some in Ho as Hlt.
    rewrite list_lookup_insert_ne by lia. by rewrite lookup_app_l.
  - destruct Hreg as (_ & Ho0 & Hname & _).
    rewrite (lookup_put_obj w db o0 _ l Ho0). case_decide; simplify_eq.
    + exists (running e o). split; [done | by constructor].
    + exists o. split; [done | constructor].
  - destruct Hreg as (_ & Ho0 & Hname & _).
    rewrite (lookup_put_obj w db o0 _ l Ho0). case_decide; simplify_eq.
    + exists (healthy o). split; [done | by constructor].
    + exists o. split; [done | constructor].
  - destruct Hreg as (_ & Ho0 & Hname & _).
    rewrite (lookup_put_obj w db o0 _ l Ho0). case_decide; simplify_eq.
    + exists (updated (accepted o)). split; [done | by econstructor].
    + exists o. split; [done | constructor].
  - destruct Hreg as (_ & Ho0 & Hname & _).
    rewrite (lookup_put_obj w db o0 _ l Ho0). case_decide; simplify_eq.
    + eexists. split; [done | by constructor].
    + exists o. split; [done | constructor].
Qed.

(** An object that no name is bound to is left alone, and stays unbound. *)
Lemma run_unbound c w l o :
  reachable clock w → objects w !! l = Some o →
  (∀ n, od_lookup n (databases w) ≠ Some l) →
  objects (run clock c w) !! l = Some o
  ∧ ∀ n, od_lookup n (databases (run clock c w)) ≠ Some l.
Proof.
  intros Hreach Ho Hfree.
  destruct (reachable_step clock c w Hreach)
    as [w d|w n l0 d Hd Hreq|w n l0 Hno|w c n Hc Hn Hl
        |w n db o0 d e Hreg Hp He|w n db o0 d Hreg Hp
        |w n l0 db o0 d Hreg Hnew|w n l0 db o0 cur new Hreg Hnew Hch
        |w n l0 db o0 cur new Hreg Hnew Hch
        |w n db o0 d Hreg|w n r db o0 d Hreg|w n db o0 d Hreg|w n|w];
    simpl; try done.
  - apply lookup_lt_Some in Ho as Hlt. split.
    + rewrite list_lookup_insert_ne by lia. by rewrite lookup_app_l.
    + intros n'. destruct (decide (n = n')) as [<-|Hne].
      * rewrite od_lookup_set_eq. intros [= <-]. lia.
      * rewrite od_lookup_set_ne by done. apply Hfree.
  - destruct Hreg as (Hl & _). split; [| done].
    rewrite list_lookup_insert_ne; [done |]. intros <-. by eapply Hfree.
  - destruct Hreg as (Hl & _). split; [| done].
    rewrite list_lookup_insert_ne; [done |]. intros <-. by eapply Hfree.
  - destruct Hreg as (Hl & _). split; [| done].
    rewrite list_lookup_insert_ne; [done |]. intros <-. by eapply Hfree.
  - destruct Hreg as (Hl & _). split.
    + rewrite list_lookup_insert_ne; [done |]. intros <-. by eapply Hfree.
    + intros n'. destruct (decide (n = n')) as [<-|Hne].
      * by rewrite od_lookup_del_eq.
      * rewrite od_lookup_del_ne by done. apply Hfree.
Qed.
End object_steps.

(** ** Readiness *)

Section readiness.
Variable clock : nat → datetime.

(** X8.  The only call that makes an object ready is [reconcile] for its
    name while it is in phase [Provisioning]; that call also makes it
    [Running] and gives it a connection string. *)
Theorem ready_set_by_provisioning_check c w l o o' :
  reachable clock w → objects w !! l = Some o → ready (status o) = false →
  objects (run clock c w) !! l = Some o' → ready (status o') = true →
  c = Reconcile (name o) ∧ phase (status o) = "Provisioning"
  ∧ phase (status o') = "Running" ∧ is_Some (connection_string (status o')).
Proof.
  intros Hreach Ho Hr Ho' Hr'.
  destruct (run_object clock c w l o Hreach Ho) as (o1 & Ho1 & Hstep).
  assert (o1 = o') as -> by congruence.
  destruct Hstep as [|e Hc Hp|Hc Hp|l' Hc|Hc]; simpl in Hr'; try congruence.
  split_and!; try done; simpl; eauto.
Qed.

(** One call keeps an object that is past provisioning and not ready so. *)
Lemma not_ready_run c w l o :
  reachable clock w → objects w !! l = Some o →
  ready (status o) = false → phase (status o) ≠ "Provisioning" →
  ∃ o', objects (run clock c w) !! l = Some o'
        ∧ ready (status o') = false ∧ phase (status o') ≠ "Provisioning".
Proof.
  intros Hreach Ho Hr Hp.
  destruct (run_object clock c w l o Hreach Ho) as (o' & Ho' & Hstep).
  exists o'. split; [done |].
  destruct Hstep as [|e Hc Hp'|Hc Hp'|l' Hc|Hc]; simpl; by split.
Qed.

Lemma not_ready_run_all cs w l o :
  reachable clock w → objects w !! l = Some o →
  ready (status o) = false → phase (status o) ≠ "Provisioning" →
  ∃ o', objects (run_all clock cs w) !! l = Some o'
        ∧ ready (status o') = false ∧ phase (status o') ≠ "Provisioning".
Proof.
  revert w o. induction cs as [|c cs IH]; intros w o Hreach Ho Hr Hp.
  - by exists o.
  - destruct (not_ready_run c w l o Hreach Ho Hr Hp) as (o1 & Ho1 & Hr1 & Hp1).
    simpl. apply (IH (run clock c w) o1); try done. by constructor.
Qed.

(** X9.  An object that is past provisioning without being ready never
    becomes ready: no sequence of calls sets the flag again. *)
Theorem never_ready_after_provisioning cs w l o :
  reachable clock w → objects w !! l = Some o →
  ready (status o) = false → phase (status o) ≠ "Provisioning" →
  ∃ o', objects (run_all clock cs w) !! l = Some o' ∧ ready (status o') = false.
Proof.
  intros Hreach Ho Hr Hp.
  destruct (not_ready_run_all cs w l o Hreach Ho Hr Hp) as (o' & Ho' & Hr' & _).
  by exists o'.
Qed.

(** X10.  An update that is accepted while the resource is still in phase
    [Provisioning] takes it to [Running] without the provisioning check: the
    resource is running but not ready, its connection string is as before,
    and whatever calls follow, that object never becomes ready. *)
Theorem update_while_provisioning w n l db o cur new cs :
  reachable clock w →
  od_lookup n (databases w) = Some db → objects w !! db = Some o →
  phase (status o) = "Provisioning" →
  spec_of w o = Some cur → dicts w !! l = Some new →
  (∃ k v, new !! k = Some v ∧ dict_get cur k ≠ v) →
  ∃ w1 o1,
    update_database clock n l w = (Returned tt, w1)
    ∧ resource_at w1 n = Some o1
    ∧ phase (status o1) = "Running" ∧ ready (status o1) = false
    ∧ connection_string (status o1) = connection_string (status o)
    ∧ ∃ o', objects (run_all clock cs w1) !! db = Some o'
            ∧ ready (status o') = false.
Proof.
  intros Hreach Hl Ho Hp Hcur Hnew Hch. apply changes_cons in Hch.
  pose proof (reachable_well_formed clock w Hreach) as Hwf.
  destruct (Hwf n db Hl) as (o0 & d0 & Ho0 & Hname & Hd0 & Hreq & [_ Hready]).
  unfold spec_of in Hcur. simplify_eq.
  pose proof (has_required_union new cur Hreq) as Hreq'.
  apply has_required_lookup in Hreq' as Hk. destruct Hk as (_ & [v Hv] & _).
  assert (ready (status o) = false) as Hr.
  { destruct (ready (status o)); [| done]. rewrite Hready in Hp; done. }
  assert (update_database clock (name o) l w
          = (Returned tt, update_applied clock (name o) db o (new ∪ cur) w)) as Hrun
    by by eapply update_database_changed.
  assert (objects (update_applied clock (name o) db o (new ∪ cur) w) !! db
          = Some (updated (accepted o))) as Ho1.
  { simpl. apply list_lookup_insert_eq. by eapply lookup_lt_Some. }
  exists (update_applied clock (name o) db o (new ∪ cur) w), (updated (accepted o)).
  split_and!; try done.
  - apply resource_at_Some. by exists db.
  - assert (reachable clock (update_applied clock (name o) db o (new ∪ cur) w)) as Hreach1.
    { pose proof (reachable_run clock (UpdateDatabase (name o) l) w Hreach) as H.
      simpl in H. by rewrite Hrun in H. }
    destruct (not_ready_run_all cs _ db _ Hreach1 Ho1) as (o' & Ho' & Hr' & _);
      [done | done |].
    by exists o'.
Qed.
End readiness.

(** ** Reconciling, scaling, updating again *)

Section operations_again.
Variable clock : nat → datetime.

(** X11.  In every reachable state one [reconcile] for a registered name
    returns and leaves the resource in phase [Running], with the registry,
    the spec dicts and the generation as they were.  If the resource was in
    [Provisioning] it is now ready and its connection string is made of the
    spec's engine and the name; if it was [Running], only its health data
    is set. *)
Theorem reconcile_registered w n o d :
  reachable clock w → resource_at w n = Some o → spec_of w o = Some d →
  ∃ w' o' e,
    reconcile clock n w = (Returned tt, w')
    ∧ databases w' = databases w ∧ dicts w' = dicts w
    ∧ d !! "engine" = Some e
    ∧ resource_at w' n = Some o'
    ∧ phase (status o') = "Running"
    ∧ generation (metadata o') = generation (metadata o)
    ∧ (phase (status o) = "Provisioning" →
       ready (status o') = true
       ∧ connection_string (status o')
         = Some (py_str e +:+ "://localhost:5432/" +:+ n))
    ∧ (phase (status o) = "Running" → o' = healthy o).
Proof.
  intros Hreach Hres Hspec. apply resource_at_Some in Hres as (db & Hl & Ho).
  destruct (reachable_well_formed clock w Hreach n db Hl)
    as (o0 & d0 & Ho0 & Hname & Hd0 & Hreq & [[Hp|Hp] Hready]);
    unfold spec_of in Hspec; simplify_eq;
    apply has_required_lookup in Hreq as Hk; destruct Hk as ([e He] & _).
  - exists (record_event clock (name o) "Running" (put_obj db (running e o) w)),
      (running e o), e.
    split_and!; try done.
    + by eapply reconcile_provisioning.
    + apply resource_at_Some. exists db. split; [done |]. simpl.
      apply list_lookup_insert_eq. by eapply lookup_lt_Some.
    + intros Hrun. rewrite Hp in Hrun. done.
  - exists (record_event clock (name o) "Running" (put_obj db (healthy o) w)),
      (healthy o), e.
    split_and!; try done.
    + by eapply reconcile_running.
    + apply resource_at_Some. exists db. split; [done |]. simpl.
      apply list_lookup_insert_eq. by eapply lookup_lt_Some.
    + intros Hprov. rewrite Hp in Hprov. done.
Qed.

(** X23.  Creation converges in one more step: for every valid spec and
    every name, from any state, [create_database] followed by one
    [reconcile] leaves the resource [Running] and ready, at generation 1,
    with the connection string made of the spec's engine and the name, and
    the two calls have appended two history entries. *)
Theorem create_then_reconcile w n l d e :
  dicts w !! l = Some d → has_required d → d !! "engine" = Some e →
  ∃ db w1 w2 o,
    create_database clock n l w = (Returned db, w1)
    ∧ reconcile clock n w1 = (Returned tt, w2)
    ∧ resource_at w2 n = Some o
    ∧ phase (status o) = "Running" ∧ ready (status o) = true
    ∧ connection_string (status o) = Some (py_str e +:+ "://localhost:5432/" +:+ n)
    ∧ generation (metadata o) = 1
    ∧ length (reconciliation_history w2) = S (S (length (reconciliation_history w))).
Proof.
  intros Hd Hreq He.
  set (db := length (objects w)).
  set (o1 := provisioned (fresh_resource n l (clock (ticks w)))).
  assert (objects (created clock n l w) !! db = Some o1) as Ho1.
  { simpl. apply list_lookup_insert_eq. rewrite length_app. simpl. lia. }
  assert (od_lookup n (databases (created clock n l w)) = Some db) as Hl.
  { simpl. apply od_lookup_set_eq. }
  exists db, (created clock n l w),
    (record_event clock n "Running" (put_obj db (running e o1) (created clock n l w))),
    (running e o1).
  split_and!; try done.
  - by eapply create_database_ok.
  - by eapply reconcile_provisioning.
  - apply resource_at_Some. exists db. split; [done |].
    simpl. rewrite list_insert_insert_eq.
    apply list_lookup_insert_eq. rewrite length_app. simpl. lia.
  - simpl. rewrite !length_app. simpl. lia.
Qed.

(** X22.  The provisioning check is not atomic.  If the spec dict has lost
    its [engine] key (only the caller can remove it), [reconcile] for a
    resource in [Provisioning] raises [KeyError] after it has already made
    the resource [Running] and ready: the connection string is not set, no
    history entry is appended and the clock is not read. *)
Theorem reconcile_provisioning_missing_engine w n db o d :
  od_lookup n (databases w) = Some db → objects w !! db = Some o →
  phase (status o) = "Provisioning" →
  dicts w !! spec o = Some d → d !! "engine" = None →
  ∃ w' o',
    reconcile clock n w = (Raised (KeyError "engine"), w')
    ∧ resource_at w' n = Some o'
    ∧ phase (status o') = "Running" ∧ ready (status o') = true
    ∧ connection_string (status o') = connection_string (status o)
    ∧ reconciliation_history w' = reconciliation_history w
    ∧ ticks w' = ticks w ∧ dicts w' = dicts w ∧ databases w' = databases w.
Proof.
  intros Hl Ho Hp Hd He.
  set (o' := map_status (with_message "Database is ready")
               (map_status (with_ready true) (map_status (with_phase "Running") o))).
  exists (put_obj db o' w), o'. split_and!; try done.
  - unfold reconcile. run_step @gets_ok. rewrite Hl. run_step read_obj_ok.
    rewrite Hp, decide_False, decide_True by done.
    erewrite bind_raised; [done |].
    unfold _check_provisioning_status.
    run_step set_status_ok. run_step set_status_ok. run_step set_status_ok.
    rewrite !put_obj_put_obj. run_step read_obj_ok.
    erewrite bind_raised; [done |]. by eapply subscript_missing.
  - apply resource_at_Some. exists db. split; [done |]. by eapply objects_put_obj_eq.
Qed.

(** X12.  The health check is idempotent: for a running resource a second
    [reconcile] leaves every object, every dict and the registry exactly as
    the first one left them; only the history and the clock move on. *)
Theorem monitor_health_idempotent w n o :
  resource_at w n = Some o → phase (status o) = "Running" →
  ∃ w1 w2,
    reconcile clock n w = (Returned tt, w1)
    ∧ reconcile clock n w1 = (Returned tt, w2)
    ∧ resource_at w1 n = Some (healthy o)
    ∧ objects w2 = objects w1 ∧ dicts w2 = dicts w1 ∧ databases w2 = databases w1
    ∧ length (reconciliation_history w2) = S (length (reconciliation_history w1)).
Proof.
  intros Hres Hp. apply resource_at_Some in Hres as (db & Hl & Ho).
  set (w1 := record_event clock n "Running" (put_obj db (healthy o) w)).
  assert (objects w1 !! db = Some (healthy o)) as Ho1.
  { simpl. apply list_lookup_insert_eq. by eapply lookup_lt_Some. }
  exists w1, (record_event clock n "Running" (put_obj db (healthy (healthy o)) w1)).
  split_and!; try done.
  - by eapply reconcile_running.
  - by eapply reconcile_running.
  - apply resource_at_Some. by exists db.
  - simpl. by rewrite list_insert_insert_eq.
  - simpl. rewrite !length_app. simpl. lia.
Qed.

(** X13.  [scale_database] on a registered name writes [replicas] into the
    resource's spec dict and does nothing else: no object changes (so phase
    and generation stay), nothing is reconciled, no history entry is
    appended, the clock is not read. *)
Theorem scale_database_only_sets_replicas w n r o d :
  resource_at w n = Some o → spec_of w o = Some d →
  ∃ w',
    scale_database n r w = (Returned tt, w')
    ∧ spec_of w' o = Some (<["replicas" := VInt r]> d)
    ∧ objects w' = objects w ∧ databases w' = databases w
    ∧ reconciliation_history w' = reconciliation_history w
    ∧ ticks w' = ticks w ∧ error_log w' = error_log w
    ∧ (∀ l, l ≠ spec o → dicts w' !! l = dicts w !! l).
Proof.
  intros Hres Hspec. apply resource_at_Some in Hres as (db & Hl & Ho).
  exists (put_dict (spec o) (<["replicas" := VInt r]> d) w). split_and!; try done.
  - by eapply scale_database_ok.
  - by eapply dicts_put_dict_eq.
  - intros l Hne. by apply dicts_put_dict_ne.
Qed.

(** X14.  [update_database] is idempotent: in a reachable state, repeating
    a call with the same dict changes nothing, whether the first call was
    accepted or not. *)
Theorem update_database_idempotent w n l new :
  reachable clock w →
  is_Some (od_lookup n (databases w)) → dicts w !! l = Some new →
  ∃ w1, update_database clock n l w = (Returned tt, w1)
        ∧ update_database clock n l w1 = (Returned tt, w1).
Proof.
  intros Hreach [db Hl] Hnew.
  destruct (reachable_well_formed clock w Hreach n db Hl)
    as (o & cur & Ho & Hname & Hcur & Hreq & Hst).
  destruct (decide (changes cur new = [])) as [Hsame|Hch].
  - exists w. split; by eapply update_database_same.
  - pose proof (has_required_union new cur Hreq) as Hreq'.
    apply has_required_lookup in Hreq' as Hk. destruct Hk as (_ & [v Hv] & _).
    exists (update_applied clock n db o (new ∪ cur) w).
    split; [by eapply update_database_changed |].
    assert (l ≠ spec o) as Hne.
    { intros ->. rewrite Hcur in Hnew. injection Hnew as ->.
      apply Hch, changes_nil. intros k v' Hk. unfold dict_get. by rewrite Hk. }
    eapply update_database_same with (o := updated (accepted o)) (cur := new ∪ cur).
    + done.
    + simpl. apply list_lookup_insert_eq. by eapply lookup_lt_Some.
    + simpl. apply list_lookup_insert_eq. by eapply lookup_lt_Some.
    + simpl. rewrite list_lookup_insert_ne by done. exact Hnew.
    + apply changes_nil. intros k v' Hk. unfold dict_get.
      by rewrite (lookup_union_Some_l new cur k v' Hk).
Qed.

(** X15.  An unknown name is never an error for the caller: [update_database],
    [delete_database] and [scale_database] return normally and
    [backup_database] returns [None]; each logs the one ERROR line and
    changes nothing else. *)
Theorem unknown_name_only_logs w n l r :
  od_lookup n (databases w) = None →
  update_database clock n l w = (Returned tt, not_found n w)
  ∧ delete_database clock n w = (Returned tt, not_found n w)
  ∧ scale_database n r w = (Returned tt, not_found n w)
  ∧ backup_database clock n w = (Returned None, not_found n w)
  ∧ databases (not_found n w) = databases w
  ∧ objects (not_found n w) = objects w ∧ dicts (not_found n w) = dicts w
  ∧ reconciliation_history (not_found n w) = reconciliation_history w
  ∧ ticks (not_found n w) = ticks w.
Proof.
  intros Hl. split_and!; try done.
  - by apply update_database_unknown.
  - by apply delete_database_unknown.
  - by apply scale_database_unknown.
  - by apply backup_database_unknown.
Qed.

(** X16.  Spec dicts are shared, not copied: when two registered resources
    were built from the same dict, an accepted update of one changes the
    spec of the other as well, while the other's object (phase, generation,
    status) stays as it was. *)
Theorem update_database_shared_spec w n n' l o o' cur new :
  reachable clock w → n ≠ n' →
  resource_at w n = Some o → resource_at w n' = Some o' → spec o' = spec o →
  spec_of w o = Some cur → dicts w !! l = Some new →
  (∃ k v, new !! k = Some v ∧ dict_get cur k ≠ v) →
  ∃ w1,
    update_database clock n l w = (Returned tt, w1)
    ∧ resource_at w1 n' = Some o'
    ∧ spec_of w1 o' = Some (new ∪ cur).
Proof.
  intros Hreach Hne Hres Hres' Hshared Hcur Hnew Hch. apply changes_cons in Hch.
  pose proof (reachable_well_formed clock w Hreach) as Hwf.
  apply resource_at_Some in Hres as (db & Hl & Ho).
  destruct (well_formed_registered w n db Hwf Hl) as (o0 & d0 & Hreg).
  pose proof Hreg as (_ & Ho0 & Hname & Hd0 & Hreq & _).
  unfold spec_of in Hcur. simplify_eq.
  pose proof (has_required_union new cur Hreq) as Hreq'.
  apply has_required_lookup in Hreq' as Hk. destruct Hk as (_ & [v Hv] & _).
  exists (update_applied clock (name o) db o (new ∪ cur) w). split_and!.
  - by eapply update_database_changed.
  - rewrite <- Hres'.
    rewrite <- (resource_at_put_obj_other w (name o) db o cur (updated (accepted o)) n' Hwf Hreg Hne).
    by apply resource_at_same.
  - unfold spec_of. rewrite Hshared. simpl.
    apply list_lookup_insert_eq. by eapply lookup_lt_Some.
Qed.

(** X17.  In every reachable state [list_databases] returns, changes
    nothing, and answers one view per registered name, in the order in
    which the names were first registered, each name once; every view is
    what [get_database_status] answers for its name. *)
Theorem list_databases_views w :
  reachable clock w →
  ∃ views,
    list_databases w = (Returned views, w)
    ∧ status_name <$> views = Some <$> od_keys (databases w)
    ∧ NoDup (od_keys (databases w))
    ∧ Forall2 (fun n v => get_database_status n w = (Returned v, w))
        (od_keys (databases w)) views.
Proof.
  intros Hreach. pose proof (reachable_well_formed clock w Hreach) as Hwf.
  destruct (list_databases_ok w Hwf) as (views & Hrun & Hnames).
  exists views. split_and!; try done.
  - by eapply reachable_NoDup.
  - clear Hnames. unfold list_databases in Hrun.
    rewrite (bind_returned _ _ _ _ _ (gets_ok databases w)) in Hrun.
    revert views Hrun. generalize (od_keys (databases w)) as ns.
    induction ns as [|n ns IH]; intros views Hrun; simpl in Hrun.
    + injection Hrun as <-. constructor.
    + unfold bind in Hrun at 1.
      pose proof (get_database_status_pure w n) as Hpure.
      destruct (get_database_status n w) as [[v|e] w0] eqn:Hget;
        simpl in Hpure; subst w0; [| done].
      unfold bind in Hrun at 1.
      pose proof (status_of_each_pure w ns) as Hpure.
      destruct (status_of_each ns w) as [[vs|e] w0] eqn:Hrest;
        simpl in Hpure; subst w0; [| done].
      injection Hrun as <-. constructor; [done | by apply IH].
Qed.

(** ** Objects that are no longer registered *)

Lemma unbound_run_all cs w l o :
  reachable clock w → objects w !! l = Some o →
  (∀ n, od_lookup n (databases w) ≠ Some l) →
  objects (run_all clock cs w) !! l = Some o.
Proof.
  revert w. induction cs as [|c cs IH]; intros w Hreach Ho Hfree; [done |].
  destruct (run_unbound clock c w l o Hreach Ho Hfree) as (Ho' & Hfree').
  simpl. apply IH; [by constructor | done | done].
Qed.

(** X18.  An object that no name is bound to any more (it was deleted, or
    replaced by a second [create_database] for its name) is never written
    again: whatever calls follow, it stays field by field as it was. *)
Theorem unbound_object_frozen cs w l o :
  reachable clock w → objects w !! l = Some o →
  (∀ n, od_lookup n (databases w) ≠ Some l) →
  objects (run_all clock cs w) !! l = Some o.
Proof. apply unbound_run_all. Qed.

(** X19.  [delete_database] leaves the object of the resource in phase
    [Deleting] with its other fields as they were, does not touch any spec
    dict, and that object then stays in [Deleting] whatever calls follow,
    also when the name is created again. *)
Theorem delete_database_leaves_deleting w n db o cs :
  reachable clock w →
  od_lookup n (databases w) = Some db → objects w !! db = Some o →
  ∃ w1,
    delete_database clock n w = (Returned tt, w1)
    ∧ dicts w1 = dicts w
    ∧ objects (run_all clock cs w1) !! db
      = Some (map_status (with_phase "Deleting") o).
Proof.
  intros Hreach Hl Ho. pose proof (reachable_well_formed clock w Hreach) as Hwf.
  destruct (Hwf n db Hl) as (o0 & d & Ho0 & Hname & _). simplify_eq.
  assert (delete_database clock (name o) w
          = (Returned tt, deleted clock (name o) db o w)) as Hrun
    by by apply delete_database_ok.
  exists (deleted clock (name o) db o w). split_and!; try done.
  apply unbound_run_all.
  - pose proof (reachable_run clock (DeleteDatabase (name o)) w Hreach) as H.
    simpl in H. by rewrite Hrun in H.
  - simpl. apply list_lookup_insert_eq. by eapply lookup_lt_Some.
  - intros n'. simpl. destruct (decide (name o = n')) as [<-|Hne].
    + by rewrite od_lookup_del_eq.
    + rewrite od_lookup_del_ne by done. intros Hl'.
      destruct (Hwf n' db Hl') as (o' & d' & Ho' & Hname' & _). by simplify_eq.
Qed.
End operations_again.

(** ** The status report *)

Section report.
Variable clock : nat → datetime.

Lemma od_lookup_elem {V} (d : list (string * V)) n v :
  NoDup (od_keys d) → (n, v) ∈ d → od_lookup n d = Some v.
Proof.
  unfold od_keys. induction d as [|[k u] d IH]; csimpl; intros Hnd Hin.
  - by apply elem_of_nil in Hin.
  - apply NoDup_cons in Hnd as [Hk Hnd]. apply elem_of_cons in Hin as [Heq|Hin].
    + simplify_eq. by rewrite decide_True.
    + rewrite decide_False; [by apply IH |].
      intros ->. apply Hk. apply list_elem_of_fmap. by exists (k, v).
Qed.

Lemma resource_lines_ok w n db :
  well_formed w → od_lookup n (databases w) = Some db →
  ∃ ls, resource_lines n db w = (Returned ls, w).
Proof.
  intros Hwf Hl. destruct (Hwf n db Hl) as (o & d & Ho & Hname & Hd & Hreq & Hst).
  apply has_required_lookup in Hreq as ([e He] & [v Hv] & [s Hs]).
  unfold resource_lines.
  run_step read_obj_ok. run_step subscript_ok. run_step subscript_ok.
  run_step subscript_ok. run_step read_dict_ok.
  destruct (health (status o)); by eexists.
Qed.

Lemma each_resource_lines_ok w items :
  well_formed w →
  (∀ n db, (n, db) ∈ items → od_lookup n (databases w) = Some db) →
  ∃ ls, each_resource_lines items w = (Returned ls, w).
Proof.
  intros Hwf. induction items as [|[n db] items IH]; intros Hin; simpl.
  - by eexists.
  - destruct (resource_lines_ok w n db Hwf) as (ls & Hls); [apply Hin; by left |].
    destruct IH as (more & Hmore); [intros n' db' H; apply Hin; by right |].
    run_step Hls. run_step Hmore. by eexists.
Qed.

Lemma ret_ok {A} (a : A) w : ret a w = (Returned a, w).
Proof. reflexivity. Qed.

Lemma bind_unchanged {A B} (m : M A) (k : A → M B) w :
  (m w).2 = w → (∀ a, (k a w).2 = w) → (bind m k w).2 = w.
Proof.
  intros Hm Hk. unfold bind. destruct (m w) as [[a|e] w1]; simpl in Hm; subst w1.
  - apply Hk.
  - done.
Qed.

Lemma read_obj_unchanged l w : (read_obj l w).2 = w.
Proof. unfold read_obj. by destruct (objects w !! l). Qed.

Lemma read_dict_unchanged l w : (read_dict l w).2 = w.
Proof. unfold read_dict. by destruct (dicts w !! l). Qed.

Lemma subscript_unchanged l k w : (subscript l k w).2 = w.
Proof.
  apply bind_unchanged; [apply read_dict_unchanged |].
  intros d. by destruct (d !! k).
Qed.

Lemma resource_lines_pure w n db : (resource_lines n db w).2 = w.
Proof.
  unfold resource_lines.
  apply bind_unchanged; [apply read_obj_unchanged | intros o].
  apply bind_unchanged; [apply subscript_unchanged | intros e].
  apply bind_unchanged; [apply subscript_unchanged | intros v].
  apply bind_unchanged; [apply subscript_unchanged | intros s].
  apply bind_unchanged; [apply read_dict_unchanged | intros d].
  by destruct (health (status o)).
Qed.

Lemma each_resource_lines_pure w items : (each_resource_lines items w).2 = w.
Proof.
  induction items as [|[n db] items IH]; [done |]. simpl. unfold bind.
  pose proof (resource_lines_pure w n db) as Hr.
  destruct (resource_lines n db w) as [[ls|e] w1]; simpl in Hr; subst w1; [| done].
  destruct (each_resource_lines items w) as [[more|e] w2]; simpl in IH; by subst w2.
Qed.

Lemma print_status_report_ok w :
  reachable clock w →
  ∃ lines, print_status_report clock w = (Returned lines, set_ticks S w).
Proof.
  intros Hreach. pose proof (reachable_well_formed clock w Hreach) as Hwf.
  pose proof (reachable_NoDup clock w Hreach) as Hnd.
  assert (well_formed (set_ticks S w)) as Hwf' by by eapply well_formed_same.
  destruct (each_resource_lines_ok (set_ticks S w) (databases w) Hwf')
    as (ls & Hls).
  { intros n db Hin. simpl. by apply od_lookup_elem. }
  unfold print_status_report. run_step now_ok. run_step @gets_ok. simpl.
  destruct (databases w) as [|item items] eqn:Hdbs.
  - run_step @ret_ok. by eexists.
  - erewrite bind_returned; cycle 1.
    { run_step Hls. reflexivity. }
    by eexists.
Qed.

(** X20.  In every reachable state [print_status_report] returns: none of
    its unguarded subscripts ([engine], [version], [storage], and the health
    keys behind the [health] test) raises.  It reads the clock once and
    changes nothing else. *)
Theorem print_status_report_returns w :
  reachable clock w →
  ∃ lines, print_status_report clock w = (Returned lines, set_ticks S w)
           ∧ databases (set_ticks S w) = databases w
           ∧ objects (set_ticks S w) = objects w ∧ dicts (set_ticks S w) = dicts w
           ∧ reconciliation_history (set_ticks S w) = reconciliation_history w.
Proof.
  intros Hreach. destruct (print_status_report_ok w Hreach) as (lines & Hrun).
  by exists lines.
Qed.

Lemma recent_length h : length (recent h) = (length h `min` 5)%nat.
Proof. unfold recent. rewrite length_drop. lia. Qed.

Lemma recent_suffix h : recent h `suffix_of` h.
Proof. apply suffix_drop. Qed.

(** X21.  Whenever the report returns, it ends with the recent events and
    the closing rule: one line for each of the last five history entries,
    oldest first, or for all of them when there are fewer than five. *)
Theorem print_status_report_recent_events w lines w' :
  print_status_report clock w = (Returned lines, w') →
  ∃ front,
    lines = (front ++ (event_line <$> recent (reconciliation_history w))
             ++ [report_rule])%list
    ∧ recent (reconciliation_history w) `suffix_of` reconciliation_history w
    ∧ length (recent (reconciliation_history w))
      = (length (reconciliation_history w) `min` 5)%nat.
Proof.
  intros Hrun.
  assert (∃ resources,
    lines = ([ newline +:+ report_rule;
               "KUBERNETES DATABASE OPERATOR - STATUS REPORT";
               report_rule;
               "Timestamp: " +:+ str_datetime (clock (ticks w));
               "Total Databases: " +:+ pretty (length (databases w)) ]
             ++ resources
             ++ [ newline +:+ report_rule;
                  "Reconciliation Events: "
                  +:+ pretty (length (reconciliation_history w)) ]
             ++ match reconciliation_history w with
                | [] => []
                | _ :: _ => (newline +:+ "Recent Events:")
                            :: (event_line <$> recent (reconciliation_history w))
                end ++ [ report_rule ])%list) as (resources & ->).
  { unfold print_status_report in Hrun.
    rewrite (bind_returned _ _ _ _ _ (now_ok clock w)) in Hrun.
    rewrite (bind_returned _ _ _ _ _ (gets_ok databases _)) in Hrun.
    simpl in Hrun. destruct (databases w) as [|item items] eqn:Hdbs.
    - rewrite (bind_returned _ _ _ _ _ (ret_ok _ _)) in Hrun.
      rewrite (bind_returned _ _ _ _ _ (gets_ok reconciliation_history _)) in Hrun.
      rewrite ret_ok in Hrun. exists []. by injection Hrun as <- _.
    - unfold bind in Hrun at 1 2.
      pose proof (each_resource_lines_pure (set_ticks S w) (item :: items)) as Hp.
      destruct (each_resource_lines (item :: items) (set_ticks S w)) as [[ls|e] w1];
        simpl in Hp; subst w1; [| done].
      rewrite ret_ok in Hrun.
      rewrite (bind_returned _ _ _ _ _ (gets_ok reconciliation_history _)) in Hrun.
      rewrite ret_ok in Hrun. exists ((newline +:+ "Database Resources:") :: ls).
      by injection Hrun as <- _. }
  cut (∃ front,
         ([ newline +:+ report_rule;
            "KUBERNETES DATABASE OPERATOR - STATUS REPORT";
            report_rule;
            "Timestamp: " +:+ str_datetime (clock (ticks w));
            "Total Databases: " +:+ pretty (length (databases w)) ]
          ++ resources
          ++ [ newline +:+ report_rule;
               "Reconciliation Events: "
               +:+ pretty (length (reconciliation_history w)) ]
          ++ match reconciliation_history w with
             | [] => []
             | _ :: _ => (newline +:+ "Recent Events:")
                         :: (event_line <$> recent (reconciliation_history w))
             end ++ [ report_rule ])%list
         = (front ++ (event_line <$> recent (reconciliation_history w))
            ++ [report_rule])%list).
  { intros (front & Heq). exists front.
    split_and!; [done | apply recent_suffix | apply recent_length]. }
  generalize (length (reconciliation_history w)) as len. intros len.
  match goal with
  | |- ∃ front, (?hd ++ resources ++ ?mid ++ _ ++ _)%list = _ =>
      generalize hd as H; generalize mid as Mi; intros Mi H
  end.
  destruct (reconciliation_history w) as [|e0 h0].
  - exists (H ++ resources ++ Mi)%list. unfold recent. simpl.
    rewrite <- !app_assoc. reflexivity.
  - exists (H ++ resources ++ Mi ++ [newline +:+ "Recent Events:"])%list.
    rewrite <- !app_assoc. reflexivity.
Qed.
End report.

(** * The further properties on the scenarios *)

Lemma scenario_created_reachable : reachable fixed_clock (scenario_created fixed_clock).
Proof. unfold scenario_created. apply reachable_run_all, reachable_init. Qed.

Lemma scenario_reconciled_reachable :
  reachable fixed_clock (scenario_reconciled fixed_clock).
Proof. apply reachable_run, scenario_created_reachable. Qed.

Lemma scenario_early_update_requested_reachable :
  reachable fixed_clock scenario_early_update_requested.
Proof. apply reachable_run, scenario_created_reachable. Qed.

Lemma scenario_early_updated_reachable : reachable fixed_clock scenario_early_updated.
Proof. apply reachable_run, scenario_early_update_requested_reachable. Qed.

Lemma scenario_shared_reachable : reachable fixed_clock scenario_shared.
Proof. unfold scenario_shared. apply reachable_run_all, reachable_init. Qed.

Lemma scenario_deleted_reachable : reachable fixed_clock scenario_deleted.
Proof. apply reachable_run, scenario_reconciled_reachable. Qed.

Lemma resource_identity_kept_witness :
  ∃ o, objects (scenario_created fixed_clock) !! 0%nat = Some o
       ∧ ∃ o', objects (run_all fixed_clock
                          [Reconcile "prod-db"; DeleteDatabase "prod-db"]
                          (scenario_created fixed_clock)) !! 0%nat = Some o'
               ∧ name o' = name o ∧ spec o' = spec o
               ∧ created_at (metadata o') = created_at (metadata o)
               ∧ generation (metadata o) ≤ generation (metadata o').
Proof.
  eexists. split; [vm_compute; reflexivity |].
  apply (resource_identity_kept fixed_clock
           [Reconcile "prod-db"; DeleteDatabase "prod-db"]
           (scenario_created fixed_clock) 0%nat).
  vm_compute. reflexivity.
Defined.

Lemma ready_never_cleared_witness :
  ∃ o, objects (scenario_reconciled fixed_clock) !! 0%nat = Some o
       ∧ ready (status o) = true
       ∧ ∃ o', objects (run_all fixed_clock [DeleteDatabase "prod-db"]
                          (scenario_reconciled fixed_clock)) !! 0%nat = Some o'
               ∧ (ready (status o) = true → ready (status o') = true)
               ∧ (is_Some (connection_string (status o)) →
                  is_Some (connection_string (status o')))
               ∧ (is_Some (health (status o)) → is_Some (health (status o'))).
Proof.
  eexists. split; [vm_compute; reflexivity |]. split; [vm_compute; reflexivity |].
  apply (ready_never_cleared fixed_clock [DeleteDatabase "prod-db"]
           (scenario_reconciled fixed_clock) 0%nat).
  vm_compute. reflexivity.
Defined.

Lemma spec_keys_never_removed_witness :
  ∃ d', dicts (run_all fixed_clock
                 [UpdateDatabase "prod-db" 1%nat; ScaleDatabase "prod-db" 5]
                 scenario_update_requested) !! 0%nat = Some d'
        ∧ is_Some (d' !! "storage").
Proof.
  apply (spec_keys_never_removed fixed_clock
           [UpdateDatabase "prod-db" 1%nat; ScaleDatabase "prod-db" 5]
           scenario_update_requested 0%nat prod_spec "storage").
  - vm_compute. reflexivity.
  - vm_compute. eauto.
Defined.

Lemma other_names_untouched_witness :
  resource_at (run fixed_clock (UpdateDatabase "blue" 1%nat) scenario_shared) "green"
  = resource_at scenario_shared "green".
Proof.
  apply (other_names_untouched fixed_clock (UpdateDatabase "blue" 1%nat)
           scenario_shared "green").
  - apply scenario_shared_reachable.
  - simpl. discriminate.
Defined.

Lemma history_per_call_witness :
  reconciliation_history
    (run fixed_clock (DeleteDatabase "prod-db") (scenario_reconciled fixed_clock))
  = (reconciliation_history (scenario_reconciled fixed_clock)
     ++ [reconciled (fixed_clock (ticks (scenario_reconciled fixed_clock)))
           "prod-db" "Deleting"])%list.
Proof.
  pose proof (history_per_call fixed_clock (DeleteDatabase "prod-db")
                (scenario_reconciled fixed_clock) scenario_reconciled_reachable) as H.
  cbv beta iota zeta in H.
  assert (od_lookup "prod-db" (databases (scenario_reconciled fixed_clock)) = Some 0%nat)
    as Hl by (vm_compute; reflexivity).
  rewrite Hl in H. exact H.
Defined.

Lemma generation_steps_witness :
  ∃ o, objects scenario_update_requested !! 0%nat = Some o
       ∧ ∃ o', objects (run fixed_clock (UpdateDatabase "prod-db" 1%nat)
                          scenario_update_requested) !! 0%nat = Some o'
               ∧ (generation (metadata o') = generation (metadata o)
                  ∨ (generation (metadata o') = generation (metadata o) + 1
                     ∧ ∃ l', UpdateDatabase "prod-db" 1%nat
                             = UpdateDatabase (name o) l')).
Proof.
  eexists. split; [vm_compute; reflexivity |].
  apply (generation_steps fixed_clock (UpdateDatabase "prod-db" 1%nat)
           scenario_update_requested 0%nat).
  - apply scenario_update_requested_reachable.
  - vm_compute. reflexivity.
Defined.

Lemma ready_set_by_provisioning_check_witness :
  ∃ o o',
    objects (scenario_created fixed_clock) !! 0%nat = Some o
    ∧ objects (run fixed_clock (Reconcile "prod-db") (scenario_created fixed_clock))
        !! 0%nat = Some o'
    ∧ Reconcile "prod-db" = Reconcile (name o)
    ∧ phase (status o) = "Provisioning"
    ∧ phase (status o') = "Running"
    ∧ is_Some (connection_string (status o')).
Proof.
  eexists _, _. split; [vm_compute; reflexivity |].
  split; [vm_compute; reflexivity |].
  apply (ready_set_by_provisioning_check fixed_clock (Reconcile "prod-db")
           (scenario_created fixed_clock) 0%nat).
  - apply scenario_created_reachable.
  - vm_compute. reflexivity.
  - reflexivity.
  - vm_compute. reflexivity.
  - reflexivity.
Defined.

Lemma never_ready_after_provisioning_witness :
  ∃ o', objects (run_all fixed_clock
                   [Reconcile "prod-db"; Reconcile "prod-db"; BackupDatabase "prod-db"]
                   scenario_early_updated) !! 0%nat = Some o'
        ∧ ready (status o') = false.
Proof.
  assert (∃ o, objects scenario_early_updated !! 0%nat = Some o
               ∧ ready (status o) = false ∧ phase (status o) = "Running")
    as (o & Ho & Hr & Hp).
  { eexists. split_and!; vm_compute; reflexivity. }
  apply (never_ready_after_provisioning fixed_clock
           [Reconcile "prod-db"; Reconcile "prod-db"; BackupDatabase "prod-db"]
           scenario_early_updated 0%nat o scenario_early_updated_reachable Ho Hr).
  rewrite Hp. discriminate.
Defined.

Lemma update_while_provisioning_witness :
  ∃ w1 o1,
    update_database fixed_clock "prod-db" 1%nat scenario_early_update_requested
    = (Returned tt, w1)
    ∧ resource_at w1 "prod-db" = Some o1
    ∧ phase (status o1) = "Running" ∧ ready (status o1) = false
    ∧ connection_string (status o1) = None
    ∧ ∃ o', objects (run_all fixed_clock [Reconcile "prod-db"; Reconcile "prod-db"] w1)
              !! 0%nat = Some o'
            ∧ ready (status o') = false.
Proof.
  assert (∃ o, objects scenario_early_update_requested !! 0%nat = Some o
               ∧ phase (status o) = "Provisioning"
               ∧ spec_of scenario_early_update_requested o = Some prod_spec
               ∧ connection_string (status o) = None)
    as (o & Ho & Hp & Hspec & Hconn).
  { eexists. split_and!; vm_compute; reflexivity. }
  assert (od_lookup "prod-db" (databases scenario_early_update_requested) = Some 0%nat)
    as Hl by (vm_compute; reflexivity).
  assert (dicts scenario_early_update_requested !! 1%nat
          = Some ({[ "version" := VStr "15.0" ]} : gmap string value))
    as Hnew by (vm_compute; reflexivity).
  destruct (update_while_provisioning fixed_clock scenario_early_update_requested
              "prod-db" 1%nat 0%nat o prod_spec {[ "version" := VStr "15.0" ]}
              [Reconcile "prod-db"; Reconcile "prod-db"]
              scenario_early_update_requested_reachable Hl Ho Hp Hspec Hnew)
    as (w1 & o1 & Hrun & Ho1 & Hp1 & Hr1 & Hc1 & Hlater).
  { exists "version", (VStr "15.0"). split; [vm_compute; reflexivity |].
    vm_compute. discriminate. }
  exists w1, o1. rewrite Hconn in Hc1.
  exact (conj Hrun (conj Ho1 (conj Hp1 (conj Hr1 (conj Hc1 Hlater))))).
Defined.

Lemma reconcile_registered_witness :
  ∃ w' o',
    reconcile fixed_clock "prod-db" (scenario_created fixed_clock) = (Returned tt, w')
    ∧ resource_at w' "prod-db" = Some o'
    ∧ phase (status o') = "Running" ∧ ready (status o') = true
    ∧ connection_string (status o') = Some "postgresql://localhost:5432/prod-db".
Proof.
  assert (∃ o, resource_at (scenario_created fixed_clock) "prod-db" = Some o
               ∧ spec_of (scenario_created fixed_clock) o = Some prod_spec
               ∧ phase (status o) = "Provisioning")
    as (o & Ho & Hspec & Hp).
  { eexists. split_and!; vm_compute; reflexivity. }
  destruct (reconcile_registered fixed_clock (scenario_created fixed_clock)
              "prod-db" o prod_spec scenario_created_reachable Ho Hspec)
    as (w' & o' & e & Hrun & _ & _ & He & Ho' & Hp' & _ & Hprov & _).
  destruct (Hprov Hp) as (Hr & Hc).
  assert (e = VStr "postgresql") as -> by (vm_compute in He; congruence).
  exists w', o'. exact (conj Hrun (conj Ho' (conj Hp' (conj Hr Hc)))).
Defined.

Lemma monitor_health_idempotent_witness :
  ∃ w1 w2,
    reconcile fixed_clock "prod-db" (scenario_reconciled fixed_clock) = (Returned tt, w1)
    ∧ reconcile fixed_clock "prod-db" w1 = (Returned tt, w2)
    ∧ objects w2 = objects w1 ∧ dicts w2 = dicts w1 ∧ databases w2 = databases w1.
Proof.
  assert (∃ o, resource_at (scenario_reconciled fixed_clock) "prod-db" = Some o
               ∧ phase (status o) = "Running") as (o & Ho & Hp).
  { eexists. split; vm_compute; reflexivity. }
  destruct (monitor_health_idempotent fixed_clock (scenario_reconciled fixed_clock)
              "prod-db" o Ho Hp)
    as (w1 & w2 & Hrun1 & Hrun2 & _ & Hobj & Hd & Hdb & _).
  exists w1, w2. exact (conj Hrun1 (conj Hrun2 (conj Hobj (conj Hd Hdb)))).
Defined.

Lemma scale_database_only_sets_replicas_witness :
  ∃ w',
    scale_database "prod-db" 5 (scenario_reconciled fixed_clock) = (Returned tt, w')
    ∧ dicts w' !! 0%nat = Some (<["replicas" := VInt 5]> prod_spec)
    ∧ objects w' = objects (scenario_reconciled fixed_clock)
    ∧ reconciliation_history w'
      = reconciliation_history (scenario_reconciled fixed_clock).
Proof.
  assert (∃ o, resource_at (scenario_reconciled fixed_clock) "prod-db" = Some o
               ∧ spec_of (scenario_reconciled fixed_clock) o = Some prod_spec
               ∧ spec o = 0%nat) as (o & Ho & Hspec & Hloc).
  { eexists. split_and!; vm_compute; reflexivity. }
  destruct (scale_database_only_sets_replicas (scenario_reconciled fixed_clock)
              "prod-db" 5 o prod_spec Ho Hspec)
    as (w' & Hrun & Hspec' & Hobj & _ & Hh & _).
  exists w'. unfold spec_of in Hspec'. rewrite Hloc in Hspec'.
  exact (conj Hrun (conj Hspec' (conj Hobj Hh))).
Defined.

Lemma update_database_idempotent_witness :
  ∃ w1 o1,
    update_database fixed_clock "prod-db" 1%nat scenario_update_requested
    = (Returned tt, w1)
    ∧ update_database fixed_clock "prod-db" 1%nat w1 = (Returned tt, w1)
    ∧ resource_at w1 "prod-db" = Some o1 ∧ generation (metadata o1) = 2.
Proof.
  destruct (update_database_idempotent fixed_clock scenario_update_requested
              "prod-db" 1%nat {[ "version" := VStr "15.0" ]}
              scenario_update_requested_reachable)
    as (w1 & Hrun & Hagain).
  - vm_compute. eauto.
  - vm_compute. reflexivity.
  - exists w1. eexists. refine (conj Hrun (conj Hagain _)).
    assert (w1 = (update_database fixed_clock "prod-db" 1%nat
                    scenario_update_requested).2) as -> by (rewrite Hrun; reflexivity).
    split; vm_compute; reflexivity.
Defined.

Lemma unknown_name_only_logs_witness :
  update_database fixed_clock "ghost" 0%nat init = (Returned tt, not_found "ghost" init)
  ∧ delete_database fixed_clock "ghost" init = (Returned tt, not_found "ghost" init)
  ∧ scale_database "ghost" 3 init = (Returned tt, not_found "ghost" init)
  ∧ backup_database fixed_clock "ghost" init = (Returned None, not_found "ghost" init).
Proof.
  destruct (unknown_name_only_logs fixed_clock init "ghost" 0%nat 3 eq_refl)
    as (Hu & Hd & Hs & Hb & _).
  exact (conj Hu (conj Hd (conj Hs Hb))).
Defined.

Lemma update_database_shared_spec_witness :
  ∃ w1 o',
    update_database fixed_clock "blue" 1%nat scenario_shared = (Returned tt, w1)
    ∧ resource_at scenario_shared "green" = Some o'
    ∧ resource_at w1 "green" = Some o'
    ∧ spec_of scenario_shared o' = Some prod_spec
    ∧ spec_of w1 o' = Some ({[ "version" := VStr "15.0" ]} ∪ prod_spec).
Proof.
  assert (∃ o o', resource_at scenario_shared "blue" = Some o
                  ∧ resource_at scenario_shared "green" = Some o'
                  ∧ spec o' = spec o
                  ∧ spec_of scenario_shared o = Some prod_spec
                  ∧ spec_of scenario_shared o' = Some prod_spec)
    as (o & o' & Ho & Ho' & Hshared & Hspec & Hspec').
  { eexists _, _. split_and!; vm_compute; reflexivity. }
  destruct (update_database_shared_spec fixed_clock scenario_shared "blue" "green"
              1%nat o o' prod_spec {[ "version" := VStr "15.0" ]}
              scenario_shared_reachable)
    as (w1 & Hrun & Hgreen & Hmerged); try assumption.
  - discriminate.
  - vm_compute. reflexivity.
  - exists "version", (VStr "15.0"). split; [vm_compute; reflexivity |].
    vm_compute. discriminate.
  - exists w1, o'. exact (conj Hrun (conj Ho' (conj Hgreen (conj Hspec' Hmerged)))).
Defined.

Lemma list_databases_views_witness :
  ∃ views,
    list_databases scenario_shared = (Returned views, scenario_shared)
    ∧ status_name <$> views = [Some "blue"; Some "green"].
Proof.
  destruct (list_databases_views fixed_clock scenario_shared scenario_shared_reachable)
    as (views & Hrun & Hnames & _).
  exists views. refine (conj Hrun _). rewrite Hnames. vm_compute. reflexivity.
Defined.

Lemma unbound_object_frozen_witness :
  ∃ o, objects scenario_deleted !! 0%nat = Some o
       ∧ phase (status o) = "Deleting"
       ∧ objects (run_all fixed_clock
                    [CreateDatabase "prod-db" 0%nat; Reconcile "prod-db"]
                    scenario_deleted) !! 0%nat = Some o.
Proof.
  eexists. split; [vm_compute; reflexivity |]. split; [vm_compute; reflexivity |].
  apply (unbound_object_frozen fixed_clock
           [CreateDatabase "prod-db" 0%nat; Reconcile "prod-db"] scenario_deleted 0%nat).
  - apply scenario_deleted_reachable.
  - vm_compute. reflexivity.
  - intros n. vm_compute. discriminate.
Defined.

Lemma delete_database_leaves_deleting_witness :
  ∃ w1 o',
    delete_database fixed_clock "prod-db" (scenario_reconciled fixed_clock)
    = (Returned tt, w1)
    ∧ objects (run_all fixed_clock [CreateDatabase "prod-db" 0%nat] w1) !! 0%nat
      = Some o'
    ∧ phase (status o') = "Deleting" ∧ ready (status o') = true.
Proof.
  assert (∃ o, objects (scenario_reconciled fixed_clock) !! 0%nat = Some o
               ∧ ready (status o) = true) as (o & Ho & Hr).
  { eexists. split; vm_compute; reflexivity. }
  assert (od_lookup "prod-db" (databases (scenario_reconciled fixed_clock)) = Some 0%nat)
    as Hl by (vm_compute; reflexivity).
  destruct (delete_database_leaves_deleting fixed_clock (scenario_reconciled fixed_clock)
              "prod-db" 0%nat o [CreateDatabase "prod-db" 0%nat]
              scenario_reconciled_reachable Hl Ho)
    as (w1 & Hrun & _ & Hobj).
  exists w1, (map_status (with_phase "Deleting") o).
  exact (conj Hrun (conj Hobj (conj eq_refl Hr))).
Defined.

Lemma print_status_report_returns_witness :
  ∃ lines,
    print_status_report fixed_clock (scenario_reconciled fixed_clock)
    = (Returned lines, set_ticks S (scenario_reconciled fixed_clock)).
Proof.
  destruct (print_status_report_returns fixed_clock (scenario_reconciled fixed_clock)
              scenario_reconciled_reachable) as (lines & Hrun & _).
  by exists lines.
Defined.

Lemma print_status_report_recent_events_witness :
  ∃ lines front,
    (print_status_report fixed_clock (scenario_reconciled fixed_clock)).1
    = Returned lines
    ∧ lines = (front
               ++ [ "  [12:00:00] prod-db: reconciled (phase: Provisioning)";
                    "  [12:00:00] prod-db: reconciled (phase: Running)" ]
               ++ [report_rule])%list.
Proof.
  destruct (print_status_report_ok fixed_clock (scenario_reconciled fixed_clock)
              scenario_reconciled_reachable) as (lines & Hrun).
  destruct (print_status_report_recent_events fixed_clock
              (scenario_reconciled fixed_clock) lines _ Hrun)
    as (front & Hlines & _).
  exists lines, front. split; [by rewrite Hrun |].
  rewrite Hlines. f_equal.
Defined.

Lemma reconcile_provisioning_missing_engine_witness :
  ∃ w' o',
    reconcile fixed_clock "prod-db" scenario_engine_removed
    = (Raised (KeyError "engine"), w')
    ∧ resource_at w' "prod-db" = Some o'
    ∧ phase (status o') = "Running" ∧ ready (status o') = true
    ∧ connection_string (status o') = None
    ∧ reconciliation_history w' = reconciliation_history scenario_engine_removed.
Proof.
  assert (∃ o, objects scenario_engine_removed !! 0%nat = Some o
               ∧ phase (status o) = "Provisioning"
               ∧ dicts scenario_engine_removed !! spec o
                 = Some (delete "engine" prod_spec)
               ∧ connection_string (status o) = None)
    as (o & Ho & Hp & Hd & Hc).
  { eexists. split_and!; vm_compute; reflexivity. }
  assert (od_lookup "prod-db" (databases scenario_engine_removed) = Some 0%nat)
    as Hl by (vm_compute; reflexivity).
  destruct (reconcile_provisioning_missing_engine fixed_clock scenario_engine_removed
              "prod-db" 0%nat o (delete "engine" prod_spec) Hl Ho Hp Hd)
    as (w' & o' & Hrun & Ho' & Hp' & Hr' & Hc' & Hh & _).
  { vm_compute. reflexivity. }
  exists w', o'. rewrite Hc in Hc'.
  exact (conj Hrun (conj Ho' (conj Hp' (conj Hr' (conj Hc' Hh))))).
Defined.

Lemma create_then_reconcile_witness :
  ∃ db w1 w2 o,
    create_database fixed_clock "cache" 0%nat (scenario_reconciled fixed_clock)
    = (Returned db, w1)
    ∧ reconcile fixed_clock "cache" w1 = (Returned tt, w2)
    ∧ resource_at w2 "cache" = Some o
    ∧ phase (status o) = "Running" ∧ ready (status o) = true
    ∧ connection_string (status o) = Some "postgresql://localhost:5432/cache".
Proof.
  assert (dicts (scenario_reconciled fixed_clock) !! 0%nat = Some prod_spec) as Hd
    by (vm_compute; reflexivity).
  assert (prod_spec !! "engine" = Some (VStr "postgresql")) as He
    by (vm_compute; reflexivity).
  destruct (create_then_reconcile fixed_clock (scenario_reconciled fixed_clock)
              "cache" 0%nat prod_spec (VStr "postgresql") Hd prod_spec_has_required He)
    as (db & w1 & w2 & o & Hc & Hr & Ho & Hp & Hready & Hconn & _).
  exists db, w1, w2, o.
  exact (conj Hc (conj Hr (conj Ho (conj Hp (conj Hready Hconn))))).
Defined.
